(** * Weather.py: daily aggregation and crop advisories

    A shallow embedding of [NyanzaWeatherForecaster.analyze_forecast] and
    [NyanzaWeatherForecaster.format_insights_for_farmers].

    Conventions of the model.
    - A Python number is kept as its exact value, a rational ([Q]): the
      value of a finite double, or an integer.  Comparisons, [max] and [min]
      are exact on values.  Additions and divisions are not: [+=] and [/]
      round their result to a double, so they are the operations [num_add]
      and [num_div] of the interpreter, components of [runtime];
      [binary64_add] and [binary64_div] are the IEEE 754 ones, for sums below
      the overflow threshold.  The running maximum and minimum start at
      minus and plus infinity, so they live in [xnum].
    - A dict access [d[k]] on a key that may be absent is a [result]: a
      missing key raises [KeyError].
    - [daily_data] is a dict; Python dicts iterate in insertion order, so it
      is an association list to which new keys are appended.
    - [weather_conditions] is a Python set.  Its content is kept as the list
      of distinct labels in insertion order; the order in which the
      interpreter iterates over it is a component of [runtime].
    - What the interpreter and the host decide (the local time zone used by
      [datetime.fromtimestamp], the rounding of sums and quotients, set
      iteration order, the text of a formatted number) is gathered in the
      record [runtime].
    - The payload is well typed: where a field is present it has the type
      the forecast API gives it (an integer timestamp that
      [datetime.fromtimestamp] accepts, finite numbers, strings, objects and
      arrays).  The [TypeError], [ValueError] and [OverflowError] that
      Python raises on other payloads are outside the model, whose errors
      are the missing keys and the division by a zero count. *)

From Stdlib Require Import ZArith QArith Qround Qabs List String Ascii Bool Lia Lqa.
From Stdlib Require Import Sorting.Sorted Sorting.Permutation DecimalString.
Import ListNotations.

Local Open Scope string_scope.
Local Open Scope Z_scope.
Local Open Scope Q_scope.

(** ** Errors *)

Inductive py_error : Type :=
| KeyError (key : string)
| ZeroDivisionError.

Inductive result (A : Type) : Type :=
| Ok (a : A)
| Raise (e : py_error).

Arguments Ok {A} a.
Arguments Raise {A} e.

Definition bind {A B : Type} (r : result A) (k : A -> result B) : result B :=
  match r with
  | Ok a => k a
  | Raise e => Raise e
  end.

Notation "x <- r ;; k" := (bind r (fun x => k))
  (at level 61, r at next level, right associativity).

(** [d[key]] where the field may be missing from the dict. *)
Definition getitem {A : Type} (key : string) (field : option A) : result A :=
  match field with
  | Some a => Ok a
  | None => Raise (KeyError key)
  end.

(** ** Numbers *)

Definition Qltb (x y : Q) : bool := negb (Qle_bool y x).

(** A float that may be infinite: [-float('inf')], a finite number,
    [float('inf')]. *)
Inductive xnum : Type :=
| NegInf
| Fin (q : Q)
| PosInf.

Definition xltb (a b : xnum) : bool :=
  match a, b with
  | NegInf, NegInf => false
  | NegInf, _ => true
  | Fin _, NegInf => false
  | Fin x, Fin y => Qltb x y
  | Fin _, PosInf => true
  | PosInf, _ => false
  end.


(** Python's [max(a, b)] and [min(a, b)] return [a] unless [b] is strictly
    better. *)
Definition py_max (a b : xnum) : xnum := if xltb a b then b else a.
Definition py_min (a b : xnum) : xnum := if xltb b a then b else a.

(** Rounding to the nearest integer, ties to even. *)
Definition round_half_even (x : Q) : Z :=
  let f := Qfloor x in
  match Qcompare (x - inject_Z f) (1 # 2) with
  | Lt => f
  | Gt => (f + 1)%Z
  | Eq => if Z.even f then f else (f + 1)%Z
  end.

(** [round(x, 1)]: the nearest multiple of one tenth. *)
Definition round1 (x : Q) : Q := Qmake (round_half_even (x * 10)) 10.

Definition xround1 (a : xnum) : xnum :=
  match a with
  | Fin q => Fin (round1 q)
  | _ => a
  end.

(** ** The interpreter and the host *)

Record runtime : Type := {
  (** the sum of two non-zero numbers as [+] returns it: rounded to the
      nearest double when an operand is a float *)
  num_add : Q -> Q -> Q;
  (** the quotient of a number by a count as [/] returns it: a float *)
  num_div : Q -> Z -> Q;
  (** [datetime.fromtimestamp(dt).strftime('%Y-%m-%d')], in the time zone of
      the host *)
  local_date : Z -> string;
  (** the order in which a set is iterated, given its distinct elements in
      insertion order *)
  set_iter : list string -> list string;
  (** the text an f-string gives for a number *)
  str_num : xnum -> string
}.

(** [x + y]: adding zero gives back the value of the other operand; any
    other sum is the one of the interpreter. *)
Definition py_add (rt : runtime) (x y : Q) : Q :=
  if Qeq_bool y 0 then x
  else if Qeq_bool x 0 then y
  else num_add rt x y.

(** ** Input: the forecast payload *)

Record main_block : Type := {
  temp : option Q;
  humidity : option Q
}.

Record rain_block : Type := {
  rain_3h : option Q
}.

Record weather_entry : Type := {
  w_main : option string
}.

Record item : Type := {
  dt : option Z;
  main : option main_block;
  rain : option rain_block;
  weather : option (list weather_entry)
}.

(** The decoded JSON object: its ['list'] entry and the names of its other
    keys. *)
Record payload : Type := {
  other_keys : list string;
  list_ : option (list item)
}.

(** [get_weather_forecast] returns the payload, or [None] when the request
    failed. *)
Definition forecast_data : Type := option payload.

(** Truth value of [forecast_data]: [None] and the empty dict are false. *)
Definition truthy (fd : forecast_data) : bool :=
  match fd with
  | None => false
  | Some p =>
      match other_keys p, list_ p with
      | [], None => false
      | _, _ => true
      end
  end.

(** ** The crop table *)

Record crop_info : Type := {
  optimal_temp : Z * Z;
  water_needs : Z;
  risk_temp : Z
}.

Record forecaster : Type := {
  base_url : string;
  api_key : string;
  nyanza_coords : Q * Q;
  crop_data : list (string * crop_info)
}.

Definition init (key : string) : forecaster := {|
  base_url := "http://api.openweathermap.org/data/2.5/forecast";
  api_key := key;
  nyanza_coords := (- (5143 # 10000), 344618 # 10000);
  crop_data :=
    [ ("maize", {| optimal_temp := (20, 30)%Z; water_needs := 500; risk_temp := 35 |});
      ("tea",   {| optimal_temp := (15, 25)%Z; water_needs := 1200; risk_temp := 30 |});
      ("beans", {| optimal_temp := (18, 27)%Z; water_needs := 400; risk_temp := 32 |}) ]
|}.

(** ** Dicts keyed by strings, in insertion order *)

Section Dict.
Context {V : Type}.

Fixpoint dict_get (k : string) (d : list (string * V)) : option V :=
  match d with
  | [] => None
  | (k', v) :: d' => if String.eqb k k' then Some v else dict_get k d'
  end.

Definition dict_mem (k : string) (d : list (string * V)) : bool :=
  match dict_get k d with
  | Some _ => true
  | None => false
  end.

(** [d[k] = v]: overwrite in place, or append a new key. *)
Fixpoint dict_set (k : string) (v : V) (d : list (string * V)) : list (string * V) :=
  match d with
  | [] => [(k, v)]
  | (k', v') :: d' =>
      if String.eqb k k' then (k, v) :: d' else (k', v') :: dict_set k v d'
  end.

(** In-place update of the value stored under an existing key. *)
Fixpoint dict_modify (k : string) (f : V -> V) (d : list (string * V)) : list (string * V) :=
  match d with
  | [] => []
  | (k', v') :: d' =>
      if String.eqb k k' then (k', f v') :: d' else (k', v') :: dict_modify k f d'
  end.
End Dict.

(** ** Sets of labels *)

Fixpoint set_mem (x : string) (s : list string) : bool :=
  match s with
  | [] => false
  | y :: s' => String.eqb x y || set_mem x s'
  end.

Definition set_add (x : string) (s : list string) : list string :=
  if set_mem x s then s else s ++ [x].

(** ** Daily summaries *)

Record day : Type := {
  temp_sum : Q;
  temp_count : Z;
  rain_sum : Q;
  humidity_sum : Q;
  max_temp : xnum;
  min_temp : xnum;
  weather_conditions : list string
}.

Definition fresh_day : day := {|
  temp_sum := 0;
  temp_count := 0;
  rain_sum := 0;
  humidity_sum := 0;
  max_temp := NegInf;
  min_temp := PosInf;
  weather_conditions := []
|}.

Definition add_temp (rt : runtime) (t : Q) (d : day) : day := {|
  temp_sum := py_add rt (temp_sum d) t;
  temp_count := (temp_count d + 1)%Z;
  rain_sum := rain_sum d;
  humidity_sum := humidity_sum d;
  max_temp := py_max (max_temp d) (Fin t);
  min_temp := py_min (min_temp d) (Fin t);
  weather_conditions := weather_conditions d
|}.

Definition add_rain (rt : runtime) (r : Q) (d : day) : day := {|
  temp_sum := temp_sum d;
  temp_count := temp_count d;
  rain_sum := py_add rt (rain_sum d) r;
  humidity_sum := humidity_sum d;
  max_temp := max_temp d;
  min_temp := min_temp d;
  weather_conditions := weather_conditions d
|}.

Definition add_humidity (rt : runtime) (h : Q) (d : day) : day := {|
  temp_sum := temp_sum d;
  temp_count := temp_count d;
  rain_sum := rain_sum d;
  humidity_sum := py_add rt (humidity_sum d) h;
  max_temp := max_temp d;
  min_temp := min_temp d;
  weather_conditions := weather_conditions d
|}.

Definition add_conditions (labels : list string) (d : day) : day := {|
  temp_sum := temp_sum d;
  temp_count := temp_count d;
  rain_sum := rain_sum d;
  humidity_sum := humidity_sum d;
  max_temp := max_temp d;
  min_temp := min_temp d;
  weather_conditions := fold_left (fun s x => set_add x s) labels (weather_conditions d)
|}.

(** [w['main'] for w in item['weather']] *)
Fixpoint weather_labels (ws : list weather_entry) : result (list string) :=
  match ws with
  | [] => Ok []
  | w :: ws' =>
      l <- getitem "main" (w_main w) ;;
      ls <- weather_labels ws' ;;
      Ok (l :: ls)
  end.

(** ** Insights *)

Module Insight.
Record t : Type := {
  date : string;
  avg_temp : Q;
  max_temp : xnum;
  min_temp : xnum;
  total_rain : Q;
  avg_humidity : Q;
  conditions : string;
  recommendations : list string
}.
End Insight.

Definition heat_warning : string :=
  "⚠️ High temperature warning! Consider shading crops.".
Definition cold_warning : string :=
  "❄️ Low temperatures may slow growth.".
Definition irrigation_advice : string :=
  "🌧️ Little rain expected. Consider irrigation.".
Definition drainage_advice : string :=
  "🌊 Heavy rain expected. Ensure proper drainage.".
Definition thunderstorm_advice : string :=
  "⚡ Thunderstorm expected. Secure equipment and harvest if possible.".

(** [sep.join(parts)] *)
Fixpoint join (sep : string) (parts : list string) : string :=
  match parts with
  | [] => ""
  | [p] => p
  | p :: ps => p ++ sep ++ join sep ps
  end.

Definition nl : string := String (ascii_of_nat 10) "".

(** [str.capitalize] of a crop name written in ASCII: the first character
    in upper case, the others in lower case; characters outside ASCII are
    left as they are. *)
Definition upper (c : ascii) : ascii :=
  let n := nat_of_ascii c in
  if andb (Nat.leb 97 n) (Nat.leb n 122) then ascii_of_nat (n - 32) else c.

Definition lower (c : ascii) : ascii :=
  let n := nat_of_ascii c in
  if andb (Nat.leb 65 n) (Nat.leb n 90) then ascii_of_nat (n + 32) else c.

Fixpoint lower_all (s : string) : string :=
  match s with
  | EmptyString => EmptyString
  | String c s' => String (lower c) (lower_all s')
  end.

Definition capitalize (s : string) : string :=
  match s with
  | EmptyString => EmptyString
  | String c s' => String (upper c) (lower_all s')
  end.

Definition no_data_message : string :=
  "No weather data available. Please try again later.".

Section Analysis.
Variable rt : runtime.

Definition daily : Type := list (string * day).

(** The body of the loop over [forecast_data['list']], statement by
    statement. *)
Definition process_item (daily_data : daily) (it : item) : result daily :=
  ts <- getitem "dt" (dt it) ;;
  let date := local_date rt ts in
  let daily_data :=
    if dict_mem date daily_data then daily_data
    else dict_set date fresh_day daily_data in
  m <- getitem "main" (main it) ;;
  t <- getitem "temp" (temp m) ;;
  let daily_data := dict_modify date (add_temp rt t) daily_data in
  let daily_data :=
    match rain it with
    | Some r =>
        let r3 := match rain_3h r with Some x => x | None => 0 end in
        dict_modify date (add_rain rt r3) daily_data
    | None => daily_data
    end in
  m' <- getitem "main" (main it) ;;
  h <- getitem "humidity" (humidity m') ;;
  let daily_data := dict_modify date (add_humidity rt h) daily_data in
  ws <- getitem "weather" (weather it) ;;
  labels <- weather_labels ws ;;
  Ok (dict_modify date (add_conditions labels) daily_data).

Fixpoint process_items (daily_data : daily) (items : list item) : result daily :=
  match items with
  | [] => Ok daily_data
  | it :: items' =>
      daily_data' <- process_item daily_data it ;;
      process_items daily_data' items'
  end.

(** The farming recommendations of one day, appended in the order of the
    source. *)
Definition recommend (ci : crop_info) (data : day) (avg total_rain : Q) : list string :=
  let recs : list string := [] in
  let recs :=
    if xltb (Fin (inject_Z (risk_temp ci))) (max_temp data)
    then (recs ++ [heat_warning])%list
    else if Qltb avg (inject_Z (fst (optimal_temp ci)))
    then (recs ++ [cold_warning])%list
    else recs in
  let recs :=
    if Qltb total_rain 5 then (recs ++ [irrigation_advice])%list
    else if Qltb 20 total_rain then (recs ++ [drainage_advice])%list
    else recs in
  let recs :=
    if set_mem "Thunderstorm" (weather_conditions data)
    then (recs ++ [thunderstorm_advice])%list
    else recs in
  recs.

(** The body of the loop over [daily_data.items()]. *)
Definition make_insight (ci : crop_info) (entry : string * day) : result Insight.t :=
  let (date, data) := entry in
  if (temp_count data =? 0)%Z then Raise ZeroDivisionError
  else
    let avg := num_div rt (temp_sum data) (temp_count data) in
    let avg_humidity := num_div rt (humidity_sum data) (temp_count data) in
    let total_rain := rain_sum data in
    let recs := recommend ci data avg total_rain in
    Ok {| Insight.date := date;
          Insight.avg_temp := round1 avg;
          Insight.max_temp := xround1 (max_temp data);
          Insight.min_temp := xround1 (min_temp data);
          Insight.total_rain := round1 total_rain;
          Insight.avg_humidity := round1 avg_humidity;
          Insight.conditions := join ", " (set_iter rt (weather_conditions data));
          Insight.recommendations := recs |}.

Fixpoint make_insights (ci : crop_info) (daily_data : daily) : result (list Insight.t) :=
  match daily_data with
  | [] => Ok []
  | entry :: rest =>
      i <- make_insight ci entry ;;
      others <- make_insights ci rest ;;
      Ok (i :: others)
  end.

(** [self.crop_data.get(crop_type, self.crop_data['maize'])]: the default
    is evaluated before the lookup. *)
Definition lookup_crop (self : forecaster) (crop_type : string) : result crop_info :=
  maize <- getitem "maize" (dict_get "maize" (crop_data self)) ;;
  Ok match dict_get crop_type (crop_data self) with
     | Some ci => ci
     | None => maize
     end.

(** [analyze_forecast]: [Ok None] is the [return None] of the guard. *)
Definition analyze_forecast (self : forecaster) (fd : forecast_data)
    (crop_type : string) : result (option (list Insight.t)) :=
  match fd with
  | None => Ok None
  | Some p =>
      if negb (truthy fd) then Ok None
      else
        ci <- lookup_crop self crop_type ;;
        items <- getitem "list" (list_ p) ;;
        daily_data <- process_items [] items ;;
        insights <- make_insights ci daily_data ;;
        Ok (Some insights)
  end.

(** One block of the message, built as the source builds [msg]. *)
Definition render_day (d : Insight.t) : string :=
  let msg := nl ++ "📅 " ++ Insight.date d ++ nl in
  let msg := msg ++ "🌡️ Temp: " ++ str_num rt (Insight.min_temp d) ++ "°C - "
                 ++ str_num rt (Insight.max_temp d) ++ "°C (Avg: "
                 ++ str_num rt (Fin (Insight.avg_temp d)) ++ "°C)" ++ nl in
  let msg := msg ++ "💧 Rain: " ++ str_num rt (Fin (Insight.total_rain d))
                 ++ "mm | Humidity: " ++ str_num rt (Fin (Insight.avg_humidity d))
                 ++ "%" ++ nl in
  let msg := msg ++ "⛅ Conditions: " ++ Insight.conditions d ++ nl in
  let msg :=
    match Insight.recommendations d with
    | [] => msg ++ nl ++ "✅ Conditions look favorable for your crops!" ++ nl
    | recs =>
        fold_left (fun m rec => m ++ "- " ++ rec ++ nl) recs
                  (msg ++ nl ++ "🔍 Recommendations:" ++ nl)
    end in
  msg.

Definition header (crop_type : string) : string :=
  "🌱 Weather Forecast for " ++ capitalize crop_type
    ++ " Farmers in Nyanza 🌱" ++ nl.

(** [format_insights_for_farmers]: the argument is what [analyze_forecast]
    returned, [None] or a list. *)
Definition format_insights_for_farmers (insights : option (list Insight.t))
    (crop_type : string) : string :=
  match insights with
  | None | Some [] => no_data_message
  | Some days => join nl (header crop_type :: map render_day days)
  end.
End Analysis.

(** ** A concrete host: UTC, sets iterated in insertion order *)

Definition str_Z (z : Z) : string := NilZero.string_of_int (Z.to_int z).

Definition pad2 (z : Z) : string :=
  if (z <? 10)%Z then "0" ++ str_Z z else str_Z z.

(** Year, month and day of the [days]-th day after 1970-01-01 in the
    proleptic Gregorian calendar. *)
Definition civil_from_days (days : Z) : Z * Z * Z :=
  let z := (days + 719468)%Z in
  let era := (z / 146097)%Z in
  let doe := (z - era * 146097)%Z in
  let yoe := ((doe - doe / 1460 + doe / 36524 - doe / 146096) / 365)%Z in
  let doy := (doe - (365 * yoe + yoe / 4 - yoe / 100))%Z in
  let mp := ((5 * doy + 2) / 153)%Z in
  let d := (doy - (153 * mp + 2) / 5 + 1)%Z in
  let m := if (mp <? 10)%Z then (mp + 3)%Z else (mp - 9)%Z in
  let y := (yoe + era * 400 + (if (m <=? 2)%Z then 1 else 0))%Z in
  (y, m, d).

Definition utc_date (ts : Z) : string :=
  let '(y, m, d) := civil_from_days (ts / 86400) in
  str_Z y ++ "-" ++ pad2 m ++ "-" ++ pad2 d.

(** The text of a float that has one decimal digit, as [round(x, 1)]
    returns it for a float [x].  (An [int] is printed without decimal
    point; the model does not tell an [int] from a float of the same
    value.) *)
Definition str_tenths (a : xnum) : string :=
  match a with
  | NegInf => "-inf"
  | PosInf => "inf"
  | Fin q =>
      let n := Qfloor (q * 10) in
      let body := str_Z (Z.abs n / 10) ++ "." ++ str_Z (Z.abs n mod 10) in
      if (n <? 0)%Z then "-" ++ body else body
  end.

(** The double nearest to a rational, ties to the even significand: 53
    bits of significand, exponents from -1074 up.  Results that would
    overflow are left out of the model. *)
Definition round_binary64 (x : Q) : Q :=
  if Qeq_bool x 0 then 0
  else
    let a := Qabs x in
    let k := (Z.log2 (Qnum a) - Z.log2 (Zpos (Qden a)))%Z in
    let floor_log2 := if Qle_bool (Qpower 2 k) a then k else (k - 1)%Z in
    let e := Z.max (floor_log2 - 52) (-1074) in
    let m := round_half_even (a / Qpower 2 e) in
    let r := inject_Z m * Qpower 2 e in
    Qred (if Qle_bool 0 x then r else - r).

(** IEEE 754 addition and division: the exact result, rounded. *)
Definition binary64_add (x y : Q) : Q := round_binary64 (x + y).
Definition binary64_div (x : Q) (n : Z) : Q := round_binary64 (x / inject_Z n).

(** The double a decimal literal of the payload is decoded to. *)
Definition json_number (literal : Q) : Q := round_binary64 literal.

Definition utc_runtime : runtime := {|
  num_add := binary64_add;
  num_div := binary64_div;
  local_date := utc_date;
  set_iter := fun s => s;
  str_num := str_tenths
|}.

(** ** Specification-side vocabulary

    The observations of a payload seen independently of the loop: the date,
    the temperature of an item, the items of one date, the mean of a list. *)

Definition item_date (rt : runtime) (it : item) : option string :=
  option_map (local_date rt) (dt it).

Definition item_temp (it : item) : option Q :=
  match main it with
  | Some m => temp m
  | None => None
  end.

Definition on_date (rt : runtime) (d : string) (it : item) : bool :=
  match item_date rt it with
  | Some d' => String.eqb d' d
  | None => false
  end.

Definition items_on (rt : runtime) (d : string) (items : list item) : list item :=
  filter (on_date rt d) items.

Definition temps_of (items : list item) : list Q :=
  flat_map (fun it => match item_temp it with Some t => [t] | None => [] end) items.

Definition Qsum (l : list Q) : Q := fold_right Qplus 0 l.

Definition mean (l : list Q) : Q := Qsum l / inject_Z (Z.of_nat (List.length l)).

(** The distinct elements of a list, each at the place of its first
    occurrence. *)
Definition first_occ (l : list string) : list string :=
  fold_left (fun acc x => set_add x acc) l [].

Definition exceeds (m : xnum) (threshold : Z) : Prop :=
  match m with
  | NegInf => False
  | Fin q => inject_Z threshold < q
  | PosInf => True
  end.

Definition date_lt (a b : string) : Prop := String.ltb a b = true.
Definition date_le (a b : string) : Prop := String.leb a b = true.

(** An observation once every field the loop reads has been found. *)
Record obs : Type := {
  o_date : string;
  o_temp : Q;
  o_rain : option Q;
  o_humidity : Q;
  o_labels : list string
}.

Definition read_item (rt : runtime) (it : item) : result obs :=
  ts <- getitem "dt" (dt it) ;;
  m <- getitem "main" (main it) ;;
  t <- getitem "temp" (temp m) ;;
  h <- getitem "humidity" (humidity m) ;;
  ws <- getitem "weather" (weather it) ;;
  labels <- weather_labels ws ;;
  Ok {| o_date := local_date rt ts;
        o_temp := t;
        o_rain := match rain it with
                  | Some r => Some match rain_3h r with Some x => x | None => 0 end
                  | None => None
                  end;
        o_humidity := h;
        o_labels := labels |}.

Fixpoint read_items (rt : runtime) (items : list item) : result (list obs) :=
  match items with
  | [] => Ok []
  | it :: items' =>
      o <- read_item rt it ;;
      os <- read_items rt items' ;;
      Ok (o :: os)
  end.

Definition accumulate (rt : runtime) (o : obs) (d : day) : day :=
  add_conditions (o_labels o)
    (add_humidity rt (o_humidity o)
       (match o_rain o with
        | Some r => add_rain rt r (add_temp rt (o_temp o) d)
        | None => add_temp rt (o_temp o) d
        end)).

Definition summarise (rt : runtime) (os : list obs) : day :=
  fold_left (fun d o => accumulate rt o d) os fresh_day.

(** The running sum of a list as the loop builds it, from 0 and in list
    order, and the average the interpreter derives from it. *)
Definition float_sum (rt : runtime) (l : list Q) : Q :=
  fold_left (py_add rt) l 0.

Definition float_mean (rt : runtime) (l : list Q) : Q :=
  num_div rt (float_sum rt l) (Z.of_nat (List.length l)).

Definition ensure (date : string) (dd : daily) : daily :=
  if dict_mem date dd then dd else dict_set date fresh_day dd.

Definition step (rt : runtime) (dd : daily) (o : obs) : daily :=
  dict_modify (o_date o) (accumulate rt o) (ensure (o_date o) dd).

Definition same_date (d : string) (o : obs) : bool := String.eqb (o_date o) d.

Definition group_all (rt : runtime) (os : list obs) : daily :=
  map (fun d => (d, summarise rt (filter (same_date d) os)))
      (first_occ (map o_date os)).

(** The insight of a day that has at least one observation. *)
Definition insight_of (rt : runtime) (ci : crop_info) (entry : string * day) : Insight.t :=
  let (date, data) := entry in
  let avg := num_div rt (temp_sum data) (temp_count data) in
  {| Insight.date := date;
     Insight.avg_temp := round1 avg;
     Insight.max_temp := xround1 (max_temp data);
     Insight.min_temp := xround1 (min_temp data);
     Insight.total_rain := round1 (rain_sum data);
     Insight.avg_humidity := round1 (num_div rt (humidity_sum data) (temp_count data));
     Insight.conditions := join ", " (set_iter rt (weather_conditions data));
     Insight.recommendations := recommend ci data avg (rain_sum data) |}.

(** The profile the lookup falls back to, and the lookup on the table of
    [init]. *)
Definition maize_profile : crop_info :=
  {| optimal_temp := (20, 30)%Z; water_needs := 500; risk_temp := 35 |}.

Definition crop_of (crop_type : string) : crop_info :=
  match dict_get crop_type (crop_data (init "")) with
  | Some ci => ci
  | None => maize_profile
  end.

(** The three groups of rules of [recommend], each on its own. *)
Definition temperature_advice (ci : crop_info) (data : day) (avg : Q) : list string :=
  if xltb (Fin (inject_Z (risk_temp ci))) (max_temp data) then [heat_warning]
  else if Qltb avg (inject_Z (fst (optimal_temp ci))) then [cold_warning]
  else [].

Definition rain_advice (total_rain : Q) : list string :=
  if Qltb total_rain 5 then [irrigation_advice]
  else if Qltb 20 total_rain then [drainage_advice]
  else [].

Definition storm_advice (data : day) : list string :=
  if set_mem "Thunderstorm" (weather_conditions data) then [thunderstorm_advice]
  else [].

Definition is_temperature_advice (r : string) : bool :=
  String.eqb r heat_warning || String.eqb r cold_warning.

(** An item whose ['rain'] entry is the explicit zero. *)
Definition with_zero_rain (it : item) : item := {|
  dt := dt it;
  main := main it;
  rain := Some {| rain_3h := Some 0 |};
  weather := weather it
|}.

Definition present {A : Type} (field : option A) : bool :=
  match field with
  | Some _ => true
  | None => false
  end.

(** Every field the loop reads is there, the ['rain'] entry left aside. *)
Definition complete_apart_from_rain (it : item) : bool :=
  match dt it, main it, weather it with
  | Some _, Some m, Some ws =>
      present (temp m) && present (humidity m)
      && forallb (fun w => present (w_main w)) ws
  | _, _, _ => false
  end.

(** The payload of [p] restricted to the observations dated [d]. *)
Definition only_date (rt : runtime) (d : string) (p : payload) : payload := {|
  other_keys := other_keys p;
  list_ := option_map (items_on rt d) (list_ p)
|}.

(** ** More specification-side vocabulary: the other fields of an item *)

(** The precipitation of an item, 0 when the ['rain'] entry or its ['3h']
    entry is absent. *)
Definition item_rain (it : item) : Q :=
  match rain it with
  | Some r => match rain_3h r with Some x => x | None => 0 end
  | None => 0
  end.

Definition item_humidity (it : item) : option Q :=
  match main it with
  | Some m => humidity m
  | None => None
  end.

Definition rains_of (items : list item) : list Q := map item_rain items.

Definition humidities_of (items : list item) : list Q :=
  flat_map (fun it => match item_humidity it with Some h => [h] | None => [] end) items.

Definition item_labels (it : item) : list string :=
  match weather it with
  | Some ws => flat_map (fun w => match w_main w with Some l => [l] | None => [] end) ws
  | None => []
  end.

Definition labels_of (items : list item) : list string := flat_map item_labels items.

(** The key whose absence stops the loop on this item: the keys are looked
    up in the order dt, main, temp, humidity, weather, and then main in each
    entry of the weather list. *)
Definition first_missing_key (it : item) : option string :=
  match dt it with
  | None => Some "dt"
  | Some _ =>
      match main it with
      | None => Some "main"
      | Some m =>
          match temp m with
          | None => Some "temp"
          | Some _ =>
              match humidity m with
              | None => Some "humidity"
              | Some _ =>
                  match weather it with
                  | None => Some "weather"
                  | Some ws =>
                      if forallb (fun w => present (w_main w)) ws then None
                      else Some "main"
                  end
              end
          end
      end
  end.

Definition obs_rain (o : obs) : Q :=
  match o_rain o with
  | Some r => r
  | None => 0
  end.

(** The sum of the observation counts of a table of days. *)
Definition total_count (dd : daily) : Z :=
  fold_right (fun entry acc => (temp_count (snd entry) + acc)%Z) 0%Z dd.

(** What an insight reports apart from its advisories. *)
Definition report (ins : Insight.t) : string * Q * xnum * xnum * Q * Q * string :=
  (Insight.date ins, Insight.avg_temp ins, Insight.max_temp ins,
   Insight.min_temp ins, Insight.total_rain ins, Insight.avg_humidity ins,
   Insight.conditions ins).

(** The figures of an insight: its report without the joined labels. *)
Definition figures (ins : Insight.t) : string * Q * xnum * xnum * Q * Q :=
  (Insight.date ins, Insight.avg_temp ins, Insight.max_temp ins,
   Insight.min_temp ins, Insight.total_rain ins, Insight.avg_humidity ins).

Definition favorable_notice : string :=
  "✅ Conditions look favorable for your crops!".

(** The line of an advisory in a block of the message. *)
Definition advisory_line (r : string) : string := ("- " ++ r ++ nl)%string.

(** The first insight of a list. *)
Definition hd_insight (l : list Insight.t) : Insight.t :=
  hd {| Insight.date := ""; Insight.avg_temp := 0; Insight.max_temp := NegInf;
        Insight.min_temp := PosInf; Insight.total_rain := 0;
        Insight.avg_humidity := 0; Insight.conditions := "";
        Insight.recommendations := [] |} l.

(** Two insights that differ at most in the order of the labels joined
    into their conditions, and two outcomes of the analysis that differ at
    most in this way. *)
Definition same_up_to_label_order (a b : Insight.t) : Prop :=
  figures a = figures b /\
  Insight.recommendations a = Insight.recommendations b /\
  exists labels la lb,
    Permutation labels la /\ Permutation labels lb /\
    Insight.conditions a = join ", " la /\
    Insight.conditions b = join ", " lb.

Definition same_outcome_up_to_label_order
    (r1 r2 : result (option (list Insight.t))) : Prop :=
  match r1, r2 with
  | Ok None, Ok None => True
  | Ok (Some l1), Ok (Some l2) => Forall2 same_up_to_label_order l1 l2
  | Raise e1, Raise e2 => e1 = e2
  | _, _ => False
  end.

(** ** Sample payloads *)

Definition reading (ts : Z) (t : Q) (r : option Q) (labels : list string) : item := {|
  dt := Some ts;
  main := Some {| temp := Some t; humidity := Some 50 |};
  rain := option_map (fun x => {| rain_3h := Some x |}) r;
  weather := Some (map (fun l => {| w_main := Some l |}) labels)
|}.

(** One hot reading on 1970-01-02, then two readings on 1970-01-01. *)
Definition sample_items : list item :=
  [ reading 86400 36 None ["Clear"];
    reading 0 (81 # 4) (Some 5) ["Rain"; "Thunderstorm"];
    reading 3600 20 None ["Rain"; "Clouds"] ].

Definition sample_payload : payload :=
  {| other_keys := ["cod"; "city"]; list_ := Some sample_items |}.

Definition sample_daily : daily :=
  Eval vm_compute in
    match process_items utc_runtime [] sample_items with
    | Ok dd => dd
    | Raise _ => []
    end.

Definition sample_insights : list Insight.t :=
  Eval vm_compute in
    match analyze_forecast utc_runtime (init "key") (Some sample_payload) "maize" with
    | Ok (Some l) => l
    | _ => []
    end.

(** A reading without temperature. *)
Definition no_temp_item : item := {|
  dt := Some 7200%Z;
  main := Some {| temp := None; humidity := Some 50 |};
  rain := None;
  weather := Some []
|}.

(** The sample readings followed by a reading without temperature. *)
Definition faulty_items : list item := sample_items ++ [no_temp_item].

Definition faulty_payload : payload :=
  {| other_keys := ["cod"]; list_ := Some faulty_items |}.

(** Readings supplied out of order: one of 1970-01-02, then two of
    1970-01-01. *)
Definition unordered_items : list item :=
  [ reading 86400 (73 # 2) (Some (1 # 2)) ["Clear"];
    reading 0 (81 # 4) (Some (1 # 2)) ["Rain"];
    reading 3600 (41 # 2) (Some (1 # 2)) ["Rain"] ].

Definition unordered_payload : payload :=
  {| other_keys := ["cod"]; list_ := Some unordered_items |}.

Definition unordered_insights : list Insight.t :=
  Eval vm_compute in
    match analyze_forecast utc_runtime (init "key") (Some unordered_payload) "maize" with
    | Ok (Some l) => l
    | _ => []
    end.

(** The same readings in the order of their timestamps. *)
Definition ordered_items : list item :=
  [ reading 0 (81 # 4) (Some (1 # 2)) ["Rain"];
    reading 3600 (41 # 2) (Some (1 # 2)) ["Rain"];
    reading 86400 (73 # 2) (Some (1 # 2)) ["Clear"] ].

Definition ordered_payload : payload :=
  {| other_keys := ["cod"]; list_ := Some ordered_items |}.

Definition ordered_insights : list Insight.t :=
  Eval vm_compute in
    match analyze_forecast utc_runtime (init "key") (Some ordered_payload) "maize" with
    | Ok (Some l) => l
    | _ => []
    end.

(** The readings of 1970-01-01 and the reading of 1970-01-02 of
    [ordered_items], as two payloads. *)
Definition first_day_items : list item :=
  [ reading 0 (81 # 4) (Some (1 # 2)) ["Rain"];
    reading 3600 (41 # 2) (Some (1 # 2)) ["Rain"] ].

Definition second_day_items : list item :=
  [ reading 86400 (73 # 2) (Some (1 # 2)) ["Clear"] ].

Definition first_day_payload : payload :=
  {| other_keys := []; list_ := Some first_day_items |}.

Definition second_day_payload : payload :=
  {| other_keys := []; list_ := Some second_day_items |}.

Definition first_day_insights : list Insight.t :=
  Eval vm_compute in
    match analyze_forecast utc_runtime (init "key") (Some first_day_payload) "maize" with
    | Ok (Some l) => l
    | _ => []
    end.

Definition second_day_insights : list Insight.t :=
  Eval vm_compute in
    match analyze_forecast utc_runtime (init "key") (Some second_day_payload) "maize" with
    | Ok (Some l) => l
    | _ => []
    end.

(** One mild reading: 25 degrees, 10 mm of rain, clouds. *)
Definition mild_items : list item :=
  [ reading 0 25 (Some 10) ["Clouds"] ].

Definition mild_payload : payload :=
  {| other_keys := []; list_ := Some mild_items |}.

Definition mild_insights : list Insight.t :=
  Eval vm_compute in
    match analyze_forecast utc_runtime (init "key") (Some mild_payload) "maize" with
    | Ok (Some l) => l
    | _ => []
    end.




(** Three readings of one date, 19.0, 19.63 and 20.32, and the same
    readings in the opposite order. *)
Definition rising_items : list item :=
  [ reading 0 (json_number 19) (Some (1 # 2)) ["Clear"];
    reading 10800 (json_number (1963 # 100)) (Some (1 # 2)) ["Clear"];
    reading 21600 (json_number (2032 # 100)) (Some (1 # 2)) ["Clear"] ].

Definition falling_items : list item :=
  [ reading 21600 (json_number (2032 # 100)) (Some (1 # 2)) ["Clear"];
    reading 10800 (json_number (1963 # 100)) (Some (1 # 2)) ["Clear"];
    reading 0 (json_number 19) (Some (1 # 2)) ["Clear"] ].

Definition rising_insights : list Insight.t :=
  Eval vm_compute in
    match analyze_forecast utc_runtime (init "key")
            (Some {| other_keys := ["cod"]; list_ := Some rising_items |}) "maize" with
    | Ok (Some l) => l
    | _ => []
    end.

Definition falling_insights : list Insight.t :=
  Eval vm_compute in
    match analyze_forecast utc_runtime (init "key")
            (Some {| other_keys := ["cod"]; list_ := Some falling_items |}) "maize" with
    | Ok (Some l) => l
    | _ => []
    end.

(** An interpreter that iterates over a set in the reverse of the insertion
    order, and what it makes of the sample payload. *)
Definition reversed_runtime : runtime := {|
  num_add := binary64_add;
  num_div := binary64_div;
  local_date := utc_date;
  set_iter := @rev string;
  str_num := str_tenths
|}.

Definition reversed_insights : list Insight.t :=
  Eval vm_compute in
    match analyze_forecast reversed_runtime (init "key") (Some sample_payload) "maize" with
    | Ok (Some l) => l
    | _ => []
    end.

(** * Properties *)

Local Open Scope list_scope.

(** ** Dicts *)

Section DictFacts.
Context {V : Type}.
Implicit Types (d : list (string * V)) (k : string).

Lemma dict_modify_compose k (f g : V -> V) d :
  dict_modify k f (dict_modify k g d) = dict_modify k (fun v => f (g v)) d.
Proof.
  induction d as [|[k' v] d IH]; simpl; auto.
  destruct (String.eqb k k') eqn:E; simpl; rewrite E; [reflexivity|].
  now rewrite IH.
Qed.

Lemma dict_modify_same k (f : V -> V) d :
  (forall v, f v = v) -> dict_modify k f d = d.
Proof.
  intros H. induction d as [|[k' v] d IH]; simpl; auto.
  destruct (String.eqb k k'); [now rewrite H | now rewrite IH].
Qed.

Lemma dict_get_keys k d :
  dict_get k d = None <-> ~ In k (map fst d).
Proof.
  induction d as [|[k' v] d IH]; simpl.
  - tauto.
  - destruct (String.eqb k k') eqn:E.
    + apply String.eqb_eq in E. subst. split; [discriminate | tauto].
    + apply String.eqb_neq in E. rewrite IH. split.
      * intros H [H'|H']; [congruence | tauto].
      * tauto.
Qed.

Lemma dict_set_fresh k v d :
  dict_get k d = None -> dict_set k v d = d ++ [(k, v)].
Proof.
  induction d as [|[k' v'] d IH]; simpl; auto.
  destruct (String.eqb k k'); [discriminate|].
  intros H. now rewrite IH.
Qed.

Lemma dict_modify_app_r k (f : V -> V) d d' :
  ~ In k (map fst d) -> dict_modify k f (d ++ d') = d ++ dict_modify k f d'.
Proof.
  induction d as [|[k' v'] d IH]; simpl; auto.
  destruct (String.eqb k k') eqn:E.
  - apply String.eqb_eq in E. subst k'. intros H. exfalso. apply H. now left.
  - intros H. rewrite IH; tauto.
Qed.

(** Updating the value under [k] in a table with distinct keys. *)
Lemma dict_modify_map k (f : V -> V) (g : string -> V) (ks : list string) :
  NoDup ks ->
  dict_modify k f (map (fun x => (x, g x)) ks) =
  map (fun x => (x, if String.eqb x k then f (g x) else g x)) ks.
Proof.
  induction 1 as [|x ks Hx Hnd IH]; simpl; auto.
  destruct (String.eqb k x) eqn:E.
  - apply String.eqb_eq in E. subst x. rewrite String.eqb_refl. f_equal.
    apply map_ext_in. intros y Hy.
    destruct (String.eqb y k) eqn:E'; auto.
    apply String.eqb_eq in E'. congruence.
  - rewrite String.eqb_sym, E. now rewrite IH.
Qed.
End DictFacts.

(** ** First occurrences *)

Lemma set_mem_In x s : set_mem x s = true <-> In x s.
Proof.
  induction s as [|y s IH]; simpl.
  - split; [discriminate | tauto].
  - rewrite orb_true_iff, IH, String.eqb_eq. split; intros [H|H]; auto.
Qed.

Lemma set_mem_false x s : set_mem x s = false <-> ~ In x s.
Proof.
  rewrite <- set_mem_In. destruct (set_mem x s); split; congruence.
Qed.

Lemma set_add_In x y s : In y (set_add x s) <-> y = x \/ In y s.
Proof.
  unfold set_add. destruct (set_mem x s) eqn:E.
  - apply set_mem_In in E. split; [tauto | intros [->|H]; auto].
  - rewrite in_app_iff. simpl. split; intros H; intuition.
Qed.

Lemma first_occ_snoc l x : first_occ (l ++ [x]) = set_add x (first_occ l).
Proof. unfold first_occ. now rewrite fold_left_app. Qed.

Lemma first_occ_In x l : In x (first_occ l) <-> In x l.
Proof.
  induction l as [|y l IH] using rev_ind.
  - reflexivity.
  - rewrite first_occ_snoc, set_add_In, in_app_iff, IH. simpl. intuition.
Qed.

Lemma NoDup_snoc {A : Type} (l : list A) (x : A) :
  NoDup l -> ~ In x l -> NoDup (l ++ [x]).
Proof.
  intros Hl Hx. apply NoDup_rev in Hl.
  rewrite <- (rev_involutive (l ++ [x])). apply NoDup_rev.
  rewrite rev_app_distr. simpl. constructor; auto.
  now rewrite <- in_rev.
Qed.

Lemma first_occ_NoDup l : NoDup (first_occ l).
Proof.
  induction l as [|y l IH] using rev_ind.
  - constructor.
  - rewrite first_occ_snoc. unfold set_add.
    destruct (set_mem y (first_occ l)) eqn:E; auto.
    apply NoDup_snoc; auto. now apply set_mem_false.
Qed.

(** ** The loop reads an observation, then folds it into its day *)

Lemma process_item_spec rt dd it :
  process_item rt dd it = (o <- read_item rt it ;; Ok (step rt dd o)).
Proof.
  unfold process_item, read_item, step, accumulate, ensure.
  destruct (dt it) as [ts|]; simpl; auto.
  destruct (main it) as [m|]; simpl; auto.
  destruct (temp m) as [t|]; simpl; auto.
  destruct (humidity m) as [h|]; simpl; auto.
  destruct (weather it) as [ws|]; simpl; auto.
  destruct (weather_labels ws) as [labels|e]; simpl; auto.
  f_equal.
  destruct (rain it) as [r|]; now rewrite !dict_modify_compose.
Qed.

Lemma process_items_spec rt items : forall dd,
  process_items rt dd items =
  (os <- read_items rt items ;; Ok (fold_left (step rt) os dd)).
Proof.
  induction items as [|it items IH]; intros dd; simpl; auto.
  rewrite process_item_spec.
  destruct (read_item rt it) as [o|e]; simpl; auto.
  rewrite IH. destruct (read_items rt items); reflexivity.
Qed.

Lemma summarise_snoc rt os o :
  summarise rt (os ++ [o]) = accumulate rt o (summarise rt os).
Proof. unfold summarise. now rewrite fold_left_app. Qed.

Lemma group_all_keys rt os :
  map fst (group_all rt os) = first_occ (map o_date os).
Proof.
  unfold group_all. rewrite map_map. simpl. apply map_id.
Qed.

Lemma filter_none_on_new_date os k :
  ~ In k (map o_date os) -> filter (same_date k) os = [].
Proof.
  induction os as [|o os IH]; simpl; auto.
  intros H. unfold same_date at 1.
  destruct (String.eqb (o_date o) k) eqn:E.
  - apply String.eqb_eq in E. tauto.
  - apply IH. tauto.
Qed.

Lemma group_all_snoc rt os o :
  group_all rt (os ++ [o]) = step rt (group_all rt os) o.
Proof.
  unfold step, ensure, dict_mem.
  set (k := o_date o).
  set (g := fun d => summarise rt (filter (same_date d) os)).
  assert (Hkeys : map fst (group_all rt os) = first_occ (map o_date os))
    by apply group_all_keys.
  unfold group_all at 1.
  rewrite map_app. change (map o_date [o]) with [k].
  rewrite first_occ_snoc. unfold set_add.
  destruct (set_mem k (first_occ (map o_date os))) eqn:E.
  - destruct (dict_get k (group_all rt os)) as [v|] eqn:G.
    2:{ apply dict_get_keys in G. rewrite Hkeys in G.
        apply set_mem_In in E. tauto. }
    unfold group_all. fold g.
    rewrite (dict_modify_map k (accumulate rt o) g) by apply first_occ_NoDup.
    apply map_ext. intros d. f_equal.
    rewrite filter_app. simpl. unfold same_date at 2. fold k.
    rewrite (String.eqb_sym d k).
    destruct (String.eqb k d).
    + now rewrite summarise_snoc.
    + now rewrite app_nil_r.
  - apply set_mem_false in E.
    destruct (dict_get k (group_all rt os)) as [v|] eqn:G.
    { assert (dict_get k (group_all rt os) <> None) by congruence.
      rewrite dict_get_keys, Hkeys in H. tauto. }
    rewrite (dict_set_fresh _ _ _ G).
    rewrite dict_modify_app_r by (rewrite Hkeys; exact E).
    rewrite map_app. simpl. rewrite String.eqb_refl. f_equal.
    + unfold group_all. apply map_ext_in. intros d Hd. f_equal.
      rewrite filter_app. simpl. unfold same_date at 2. fold k.
      destruct (String.eqb k d) eqn:E'.
      * apply String.eqb_eq in E'. subst d. tauto.
      * now rewrite app_nil_r.
    + do 2 f_equal. rewrite filter_app. simpl.
      unfold same_date at 2. fold k. rewrite String.eqb_refl.
      rewrite filter_none_on_new_date.
      * reflexivity.
      * now rewrite <- first_occ_In.
Qed.

(** The loop groups the observations by date: one entry per date, in the
    order in which the dates first occur, each entry folding exactly the
    observations of its date. *)
Lemma fold_step_group_all rt os : fold_left (step rt) os [] = group_all rt os.
Proof.
  induction os as [|o os IH] using rev_ind.
  - reflexivity.
  - now rewrite fold_left_app, IH, group_all_snoc.
Qed.

Lemma process_items_groups rt items :
  process_items rt [] items = (os <- read_items rt items ;; Ok (group_all rt os)).
Proof.
  rewrite process_items_spec.
  destruct (read_items rt items) as [os|e]; simpl; auto.
  now rewrite fold_step_group_all.
Qed.

(** ** Rounding *)

Ltac qcompare_props :=
  repeat match goal with
  | H : Qcompare _ _ = Eq |- _ => apply Qeq_alt in H
  | H : Qcompare _ _ = Lt |- _ => apply Qlt_alt in H
  | H : Qcompare _ _ = Gt |- _ => apply Qgt_alt in H
  end.

Lemma round_half_even_floor x :
  (Qfloor x <= round_half_even x <= Qfloor x + 1)%Z.
Proof.
  unfold round_half_even.
  destruct (Qcompare _ _); [destruct (Z.even _)| |]; lia.
Qed.

Lemma round_half_even_mono x y :
  x <= y -> (round_half_even x <= round_half_even y)%Z.
Proof.
  intros Hxy.
  pose proof (Qfloor_resp_le _ _ Hxy) as Hf.
  pose proof (round_half_even_floor x) as Hx.
  pose proof (round_half_even_floor y) as Hy.
  destruct (Z.eq_dec (Qfloor x) (Qfloor y)) as [E|E]; [|lia].
  clear Hx Hy Hf. unfold round_half_even. rewrite <- E.
  set (f := Qfloor x).
  destruct (Qcompare (x - inject_Z f) (1 # 2)) eqn:Cx;
    destruct (Qcompare (y - inject_Z f) (1 # 2)) eqn:Cy;
    try (destruct (Z.even f)); try lia;
    qcompare_props; exfalso; lra.
Qed.


Lemma round1_Qeq x y : x == y -> round1 x = round1 y.
Proof.
  intros H. unfold round1. f_equal.
  apply Z.le_antisymm; apply round_half_even_mono; lra.
Qed.

Lemma Qltb_lt x y : Qltb x y = true <-> x < y.
Proof.
  unfold Qltb. rewrite negb_true_iff.
  destruct (Qle_bool y x) eqn:E.
  - apply Qle_bool_iff in E. split; [discriminate | lra].
  - split; auto. intros _.
    destruct (Qlt_le_dec x y) as [H|H]; auto.
    apply Qle_bool_iff in H. congruence.
Qed.

Lemma Qltb_ge x y : Qltb x y = false <-> y <= x.
Proof.
  destruct (Qltb x y) eqn:E.
  - apply Qltb_lt in E. split; [discriminate | lra].
  - split; auto. intros _.
    destruct (Qlt_le_dec x y) as [H|H]; auto.
    apply Qltb_lt in H. congruence.
Qed.

Ltac qltb_props :=
  repeat match goal with
  | H : Qltb _ _ = true |- _ => apply Qltb_lt in H
  | H : Qltb _ _ = false |- _ => apply Qltb_ge in H
  end.

Lemma xltb_exceeds m r : xltb (Fin (inject_Z r)) m = true <-> exceeds m r.
Proof.
  destruct m; simpl; try (split; [discriminate | tauto]).
  - apply Qltb_lt.
  - tauto.
Qed.

(** ** What a daily summary holds *)

Lemma summarise_temp_count rt os :
  temp_count (summarise rt os) = Z.of_nat (List.length os).
Proof.
  induction os as [|o os IH] using rev_ind.
  - reflexivity.
  - rewrite summarise_snoc, length_app. simpl.
    unfold accumulate. destruct (o_rain o); simpl; rewrite IH; lia.
Qed.

Lemma float_sum_snoc rt l x :
  float_sum rt (l ++ [x]) = py_add rt (float_sum rt l) x.
Proof. unfold float_sum. now rewrite fold_left_app. Qed.

Lemma summarise_temp_sum rt os :
  temp_sum (summarise rt os) = float_sum rt (map o_temp os).
Proof.
  induction os as [|o os IH] using rev_ind.
  - reflexivity.
  - rewrite summarise_snoc, map_app. simpl map. rewrite float_sum_snoc, <- IH.
    unfold accumulate. destruct (o_rain o); reflexivity.
Qed.

Lemma accumulate_extrema rt o d :
  max_temp (accumulate rt o d) = py_max (max_temp d) (Fin (o_temp o)) /\
  min_temp (accumulate rt o d) = py_min (min_temp d) (Fin (o_temp o)).
Proof. unfold accumulate. destruct (o_rain o); simpl; auto. Qed.




Lemma summarise_avg rt os :
  num_div rt (temp_sum (summarise rt os)) (temp_count (summarise rt os)) =
  float_mean rt (map o_temp os).
Proof.
  unfold float_mean.
  now rewrite summarise_temp_count, summarise_temp_sum, length_map.
Qed.

(** ** Items and the observations read from them *)

Lemma read_item_fields rt it o :
  read_item rt it = Ok o ->
  item_date rt it = Some (o_date o) /\ item_temp it = Some (o_temp o).
Proof.
  unfold read_item, item_date, item_temp.
  destruct (dt it) as [ts|]; simpl; [|discriminate].
  destruct (main it) as [m|]; simpl; [|discriminate].
  destruct (temp m) as [t|]; simpl; [|discriminate].
  destruct (humidity m) as [h|]; simpl; [|discriminate].
  destruct (weather it) as [ws|]; simpl; [|discriminate].
  destruct (weather_labels ws) as [labels|e]; simpl; [|discriminate].
  intros [= <-]. auto.
Qed.

Lemma read_items_cons rt it items os :
  read_items rt (it :: items) = Ok os ->
  exists o os', os = o :: os' /\ read_item rt it = Ok o /\ read_items rt items = Ok os'.
Proof.
  simpl. destruct (read_item rt it) as [o|e]; simpl; [|discriminate].
  destruct (read_items rt items) as [os'|e]; simpl; [|discriminate].
  intros [= <-]. eauto.
Qed.

Lemma read_items_temps rt items : forall os,
  read_items rt items = Ok os -> temps_of items = map o_temp os.
Proof.
  induction items as [|it items IH]; intros os H.
  - injection H as <-. reflexivity.
  - apply read_items_cons in H as (o & os' & -> & Ho & Hos).
    apply read_item_fields in Ho as [_ Ht].
    unfold temps_of in *. simpl. rewrite Ht. simpl. f_equal. now apply IH.
Qed.

Lemma read_items_dates rt items : forall os,
  read_items rt items = Ok os ->
  map (item_date rt) items = map Some (map o_date os).
Proof.
  induction items as [|it items IH]; intros os H.
  - injection H as <-. reflexivity.
  - apply read_items_cons in H as (o & os' & -> & Ho & Hos).
    apply read_item_fields in Ho as [Hd _].
    simpl. rewrite Hd. f_equal. now apply IH.
Qed.

Lemma read_items_on rt d items : forall os,
  read_items rt items = Ok os ->
  read_items rt (items_on rt d items) = Ok (filter (same_date d) os).
Proof.
  induction items as [|it items IH]; intros os H.
  - injection H as <-. reflexivity.
  - apply read_items_cons in H as (o & os' & -> & Ho & Hos).
    pose proof (read_item_fields _ _ _ Ho) as [Hd _].
    unfold items_on in *. simpl. unfold on_date at 1, same_date at 1.
    rewrite Hd. destruct (String.eqb (o_date o) d); auto.
    simpl. rewrite Ho. simpl. now rewrite (IH _ Hos).
Qed.

Lemma read_items_length rt items : forall os,
  read_items rt items = Ok os -> List.length os = List.length items.
Proof.
  intros os H. apply read_items_dates in H.
  apply (f_equal (@List.length _)) in H. now rewrite !length_map in H.
Qed.

(** ** Every day of the table has an observation *)

Lemma group_all_entry rt os d data :
  In (d, data) (group_all rt os) ->
  data = summarise rt (filter (same_date d) os) /\
  filter (same_date d) os <> [] /\
  In d (map o_date os).
Proof.
  unfold group_all. rewrite in_map_iff. intros (d' & E & Hin).
  injection E as -> <-.
  rewrite first_occ_In in Hin. repeat split; auto.
  apply in_map_iff in Hin as (o & Ho & Hin).
  intros E. assert (Hf : In o (filter (same_date d) os)).
  { apply filter_In. split; auto. unfold same_date. rewrite Ho.
    apply String.eqb_refl. }
  rewrite E in Hf. inversion Hf.
Qed.

Lemma group_all_counts rt os entry :
  In entry (group_all rt os) -> (0 < temp_count (snd entry))%Z.
Proof.
  destruct entry as [d data]. intros H.
  apply group_all_entry in H as (-> & Hne & _). simpl.
  rewrite summarise_temp_count.
  destruct (filter (same_date d) os); [congruence|]. simpl List.length. lia.
Qed.

Lemma make_insight_ok rt ci entry :
  (0 < temp_count (snd entry))%Z ->
  make_insight rt ci entry = Ok (insight_of rt ci entry).
Proof.
  destruct entry as [d data]. simpl. intros H.
  destruct (Z.eqb_spec (temp_count data) 0); [lia|]. reflexivity.
Qed.

Lemma make_insights_ok rt ci dd :
  Forall (fun entry => (0 < temp_count (snd entry))%Z) dd ->
  make_insights rt ci dd = Ok (map (insight_of rt ci) dd).
Proof.
  induction 1 as [|entry dd He Hdd IH]; simpl; auto.
  now rewrite make_insight_ok, IH.
Qed.

(** ** The crop table *)

Lemma lookup_crop_init key crop_type :
  lookup_crop (init key) crop_type = Ok (crop_of crop_type).
Proof. reflexivity. Qed.

(** ** What [analyze_forecast] returns *)

Lemma analyze_forecast_spec rt key p items crop_type :
  list_ p = Some items ->
  analyze_forecast rt (init key) (Some p) crop_type =
  (os <- read_items rt items ;;
   Ok (Some (map (insight_of rt (crop_of crop_type)) (group_all rt os)))).
Proof.
  intros Hl. unfold analyze_forecast, truthy. rewrite Hl.
  destruct (other_keys p); simpl negb; cbv iota;
    rewrite lookup_crop_init; simpl;
    rewrite process_items_groups;
    (destruct (read_items rt items) as [os|e]; simpl; auto);
    rewrite make_insights_ok; auto;
    apply Forall_forall; apply group_all_counts.
Qed.

Lemma analyze_forecast_inv rt key fd crop_type insights :
  analyze_forecast rt (init key) fd crop_type = Ok (Some insights) ->
  exists p items os,
    fd = Some p /\ list_ p = Some items /\
    read_items rt items = Ok os /\
    process_items rt [] items = Ok (group_all rt os) /\
    insights = map (insight_of rt (crop_of crop_type)) (group_all rt os).
Proof.
  destruct fd as [p|]; [|discriminate].
  destruct (list_ p) as [items|] eqn:Hl.
  - rewrite (analyze_forecast_spec _ _ _ _ _ Hl).
    destruct (read_items rt items) as [os|e] eqn:Hos; simpl; [|discriminate].
    intros [= <-]. exists p, items, os. repeat split; auto.
    now rewrite process_items_groups, Hos.
  - unfold analyze_forecast, truthy. rewrite Hl.
    destruct (other_keys p); simpl; discriminate.
Qed.

Lemma analyze_forecast_of_daily rt key p items crop_type daily_data :
  list_ p = Some items ->
  process_items rt [] items = Ok daily_data ->
  analyze_forecast rt (init key) (Some p) crop_type =
    Ok (Some (map (insight_of rt (crop_of crop_type)) daily_data)) /\
  exists os, read_items rt items = Ok os /\ daily_data = group_all rt os.
Proof.
  intros Hl Hd. rewrite (analyze_forecast_spec _ _ _ _ _ Hl).
  rewrite process_items_groups in Hd.
  destruct (read_items rt items) as [os|e]; simpl in *; [|discriminate].
  injection Hd as <-. eauto.
Qed.

Lemma Forall2_map_both {A B C : Type} (R : B -> C -> Prop)
    (f : A -> B) (g : A -> C) l :
  Forall (fun x => R (f x) (g x)) l -> Forall2 R (map f l) (map g l).
Proof. induction 1; simpl; constructor; auto. Qed.

Lemma Forall2_map_self {A B : Type} (R : A -> B -> Prop) (f : A -> B) l :
  Forall (fun x => R x (f x)) l -> Forall2 R l (map f l).
Proof. induction 1; simpl; constructor; auto. Qed.

(** ** An insight and the observations of its date *)

Lemma insight_inv rt key p items crop_type insights ins :
  list_ p = Some items ->
  analyze_forecast rt (init key) (Some p) crop_type = Ok (Some insights) ->
  In ins insights ->
  exists d g,
    Insight.date ins = d /\
    g <> [] /\
    read_items rt (items_on rt d items) = Ok g /\
    ins = insight_of rt (crop_of crop_type) (d, summarise rt g).
Proof.
  intros Hl Ha Hin.
  apply analyze_forecast_inv in Ha
    as (p' & items' & os & [= <-] & Hl' & Hos & _ & ->).
  assert (items' = items) by congruence. subst items'. clear Hl'.
  apply in_map_iff in Hin as ([d data] & <- & Hin).
  apply group_all_entry in Hin as (-> & Hne & _).
  exists d, (filter (same_date d) os). cbn [insight_of Insight.date].
  repeat split; auto. now apply read_items_on.
Qed.

Ltac day_of_insight Hl Ha ins Hin d g Hne Hg :=
  let Hd := fresh "Hd" in
  let Hins := fresh "Hins" in
  destruct (insight_inv _ _ _ _ _ _ ins Hl Ha Hin)
    as (d & g & Hd & Hne & Hg & Hins);
  rewrite Hd; clear Hd; subst ins;
  cbn [insight_of Insight.date Insight.avg_temp Insight.max_temp
       Insight.min_temp Insight.total_rain Insight.avg_humidity
       Insight.conditions Insight.recommendations].

(** ** The advisory rules *)

Lemma recommend_parts ci data avg total_rain :
  recommend ci data avg total_rain =
  temperature_advice ci data avg ++ rain_advice total_rain ++ storm_advice data.
Proof.
  unfold recommend, temperature_advice, rain_advice, storm_advice.
  destruct (xltb _ _); [|destruct (Qltb avg _)];
    (destruct (Qltb total_rain 5); [|destruct (Qltb 20 total_rain)]);
    destruct (set_mem _ _); reflexivity.
Qed.

Ltac advice_cases :=
  rewrite recommend_parts;
  unfold temperature_advice, rain_advice, storm_advice;
  repeat match goal with
  | |- context [if ?c then _ else _] => destruct c eqn:?
  end.

Ltac no_such_advice :=
  simpl; unfold heat_warning, cold_warning, irrigation_advice,
    drainage_advice, thunderstorm_advice;
  intuition discriminate.

(** C1: when the maximum temperature of a daily summary exceeds the risk
    threshold of the crop profile, the advisories of that day contain the
    heat-stress warning and not the cold-stress warning; on every day at most
    one of the two temperature advisories appears. *)
Theorem heat_warning_excludes_cold_warning rt key p items crop_type daily_data :
  list_ p = Some items ->
  process_items rt [] items = Ok daily_data ->
  exists insights,
    analyze_forecast rt (init key) (Some p) crop_type = Ok (Some insights) /\
    Forall2
      (fun entry ins =>
         Insight.date ins = fst entry /\
         (exceeds (max_temp (snd entry)) (risk_temp (crop_of crop_type)) ->
          In heat_warning (Insight.recommendations ins) /\
          ~ In cold_warning (Insight.recommendations ins)) /\
         (List.length (filter is_temperature_advice (Insight.recommendations ins))
          <= 1)%nat)
      daily_data insights.
Proof.
  intros Hl Hd.
  destruct (analyze_forecast_of_daily rt key p items crop_type daily_data Hl Hd)
    as [Ha _].
  eexists. split; [exact Ha|].
  apply Forall2_map_self, Forall_forall. intros [d data] _.
  cbn [insight_of Insight.date Insight.recommendations fst snd].
  split; [reflexivity|]. split.
  - intros Hex. apply xltb_exceeds in Hex.
    rewrite recommend_parts. unfold temperature_advice. rewrite Hex.
    split; [now left|].
    unfold rain_advice, storm_advice.
    repeat match goal with
    | |- context [if ?c then _ else _] => destruct c
    end; no_such_advice.
  - advice_cases; vm_compute; lia.
Qed.

Lemma heat_warning_excludes_cold_warning_witness :
  list_ sample_payload = Some sample_items /\
  process_items utc_runtime [] sample_items = Ok sample_daily /\
  exists insights,
    analyze_forecast utc_runtime (init "key") (Some sample_payload) "maize"
      = Ok (Some insights) /\
    Forall2
      (fun entry ins =>
         Insight.date ins = fst entry /\
         (exceeds (max_temp (snd entry)) (risk_temp (crop_of "maize")) ->
          In heat_warning (Insight.recommendations ins) /\
          ~ In cold_warning (Insight.recommendations ins)) /\
         (List.length (filter is_temperature_advice (Insight.recommendations ins))
          <= 1)%nat)
      sample_daily insights.
Proof.
  split; [reflexivity|]. split; [reflexivity|].
  apply (heat_warning_excludes_cold_warning utc_runtime "key" sample_payload
           sample_items "maize" sample_daily); reflexivity.
Defined.

Ltac solve_advice :=
  first [ lra
        | solve [simpl; auto 6]
        | solve [exfalso; lra]
        | solve [no_such_advice] ].

(** C2: the irrigation advisory is emitted exactly when the total
    precipitation of the day is strictly below 5, the drainage advisory
    exactly when it is strictly above 20; at exactly 5 there is no irrigation
    advisory and at exactly 20 no drainage advisory. *)
Theorem rain_advisories_strict_thresholds rt key p items crop_type daily_data :
  list_ p = Some items ->
  process_items rt [] items = Ok daily_data ->
  exists insights,
    analyze_forecast rt (init key) (Some p) crop_type = Ok (Some insights) /\
    Forall2
      (fun entry ins =>
         Insight.date ins = fst entry /\
         (In irrigation_advice (Insight.recommendations ins) <->
          rain_sum (snd entry) < 5) /\
         (In drainage_advice (Insight.recommendations ins) <->
          20 < rain_sum (snd entry)) /\
         (rain_sum (snd entry) == 5 ->
          ~ In irrigation_advice (Insight.recommendations ins)) /\
         (rain_sum (snd entry) == 20 ->
          ~ In drainage_advice (Insight.recommendations ins)))
      daily_data insights.
Proof.
  intros Hl Hd.
  destruct (analyze_forecast_of_daily rt key p items crop_type daily_data Hl Hd)
    as [Ha _].
  eexists. split; [exact Ha|].
  apply Forall2_map_self, Forall_forall. intros [d data] _.
  cbn [insight_of Insight.date Insight.recommendations fst snd].
  split; [reflexivity|].
  advice_cases; qltb_props;
    repeat split; intros; try solve_advice;
    match goal with
    | H : In _ _ |- _ => revert H; no_such_advice
    end.
Qed.

Lemma rain_advisories_strict_thresholds_witness :
  list_ sample_payload = Some sample_items /\
  process_items utc_runtime [] sample_items = Ok sample_daily /\
  exists insights,
    analyze_forecast utc_runtime (init "key") (Some sample_payload) "maize"
      = Ok (Some insights) /\
    Forall2
      (fun entry ins =>
         Insight.date ins = fst entry /\
         (In irrigation_advice (Insight.recommendations ins) <->
          rain_sum (snd entry) < 5) /\
         (In drainage_advice (Insight.recommendations ins) <->
          20 < rain_sum (snd entry)) /\
         (rain_sum (snd entry) == 5 ->
          ~ In irrigation_advice (Insight.recommendations ins)) /\
         (rain_sum (snd entry) == 20 ->
          ~ In drainage_advice (Insight.recommendations ins)))
      sample_daily insights.
Proof.
  split; [reflexivity|]. split; [reflexivity|].
  apply (rain_advisories_strict_thresholds utc_runtime "key" sample_payload
           sample_items "maize" sample_daily); reflexivity.
Defined.

(** ** Reported temperatures *)




(** On the sample payload the averages of the interpreter are the exact
    means, so the reported averages lie between the reported extrema. *)
Lemma sample_averages_are_exact :
  Forall
    (fun ins =>
       let temps := temps_of (items_on utc_runtime (Insight.date ins) sample_items) in
       float_mean utc_runtime temps == mean temps)
    sample_insights.
Proof. repeat constructor. Qed.


(** ** No observations *)

(** C3: a payload whose observation list is empty is analysed without error
    into the empty insight list, and that result is rendered as the fixed
    message saying that no weather data is available. *)
Theorem empty_observations_render_no_data rt key keys crop_type :
  exists returned,
    analyze_forecast rt (init key)
      (Some {| other_keys := keys; list_ := Some [] |}) crop_type = Ok returned /\
    returned = Some [] /\
    format_insights_for_farmers rt returned crop_type =
      "No weather data available. Please try again later."%string.
Proof.
  exists (Some []). repeat split.
  unfold analyze_forecast, truthy. cbn [other_keys list_].
  destruct keys; reflexivity.
Qed.

(** Without a payload ([None], or a dict with no key at all) the guard
    returns [None], which is rendered as the same message. *)
Lemma missing_payload_renders_no_data rt self crop_type :
  analyze_forecast rt self None crop_type = Ok None /\
  analyze_forecast rt self (Some {| other_keys := []; list_ := None |}) crop_type
    = Ok None /\
  format_insights_for_farmers rt None crop_type = no_data_message.
Proof. repeat split. Qed.

(** ** Crop lookup *)

(** C7: a crop name that is not a key of the crop table does not make the
    analysis fail: the maize profile (optimal temperatures 20 to 30, water
    needs 500, risk temperature 35) is used, and the result is the one
    obtained for ['maize']. *)
Theorem unknown_crop_uses_maize_profile rt key fd crop_type :
  dict_get crop_type (crop_data (init key)) = None ->
  lookup_crop (init key) crop_type =
    Ok {| optimal_temp := (20, 30)%Z; water_needs := 500; risk_temp := 35 |} /\
  lookup_crop (init key) "maize" = lookup_crop (init key) crop_type /\
  analyze_forecast rt (init key) fd crop_type =
    analyze_forecast rt (init key) fd "maize".
Proof.
  intros H.
  assert (Hc : lookup_crop (init key) crop_type = Ok maize_profile).
  { unfold lookup_crop. rewrite H. reflexivity. }
  split; [exact Hc|]. split; [now rewrite Hc|].
  unfold analyze_forecast. destruct fd as [p|]; auto.
  destruct (negb (truthy (Some p))); auto.
  now rewrite Hc.
Qed.

Lemma unknown_crop_uses_maize_profile_witness :
  dict_get "wheat" (crop_data (init "key")) = None /\
  lookup_crop (init "key") "wheat" =
    Ok {| optimal_temp := (20, 30)%Z; water_needs := 500; risk_temp := 35 |} /\
  lookup_crop (init "key") "maize" = lookup_crop (init "key") "wheat" /\
  analyze_forecast utc_runtime (init "key") (Some sample_payload) "wheat" =
    analyze_forecast utc_runtime (init "key") (Some sample_payload) "maize".
Proof.
  split; [reflexivity|].
  apply (unknown_crop_uses_maize_profile utc_runtime "key" (Some sample_payload)
           "wheat").
  reflexivity.
Defined.

(** ** No hidden state *)

Section TwoInterpreters.
Variables rt1 rt2 : runtime.
Hypothesis same_dates : forall ts, local_date rt1 ts = local_date rt2 ts.
Hypothesis same_add : forall x y, num_add rt1 x y = num_add rt2 x y.
Hypothesis same_div : forall x n, num_div rt1 x n = num_div rt2 x n.

Lemma read_items_runtime items : read_items rt1 items = read_items rt2 items.
Proof.
  induction items as [|it items IH]; simpl; auto.
  assert (E : read_item rt1 it = read_item rt2 it).
  { unfold read_item. destruct (dt it) as [ts|]; simpl; auto.
    now rewrite same_dates. }
  now rewrite E, IH.
Qed.

Lemma py_add_runtime x y : py_add rt1 x y = py_add rt2 x y.
Proof. unfold py_add. now rewrite same_add. Qed.

Lemma accumulate_runtime o d : accumulate rt1 o d = accumulate rt2 o d.
Proof.
  unfold accumulate, add_humidity, add_rain, add_temp.
  destruct (o_rain o); simpl; now rewrite !py_add_runtime.
Qed.

Lemma summarise_runtime os : summarise rt1 os = summarise rt2 os.
Proof.
  induction os as [|o os IH] using rev_ind; auto.
  now rewrite !summarise_snoc, IH, accumulate_runtime.
Qed.

Lemma group_all_runtime os : group_all rt1 os = group_all rt2 os.
Proof.
  unfold group_all. apply map_ext. intros d. now rewrite summarise_runtime.
Qed.

Lemma process_items_runtime items :
  process_items rt1 [] items = process_items rt2 [] items.
Proof.
  rewrite !process_items_groups, read_items_runtime.
  destruct (read_items rt2 items); simpl; auto.
  now rewrite group_all_runtime.
Qed.

Lemma insight_of_runtime ci entry :
  figures (insight_of rt1 ci entry) = figures (insight_of rt2 ci entry) /\
  Insight.recommendations (insight_of rt1 ci entry) =
    Insight.recommendations (insight_of rt2 ci entry).
Proof.
  destruct entry as [d data]. unfold figures. simpl.
  now rewrite !same_div.
Qed.
End TwoInterpreters.

(** C9, as the code has it: the outcome is a function of the observation
    list and the crop name up to the order of the labels in the joined
    condition strings.  Two invocations, under interpreters with the same
    time zone and arithmetic that each iterate over a set in an order of
    their own, and on forecasters built with any keys, build identical daily
    summaries, fail with the same error or return day by day the same
    date, figures and advisories, with condition strings that join the same
    labels; the strings too are identical when both iterate in the same
    order. *)
Theorem analyze_forecast_determined_up_to_label_order
    rt1 rt2 key1 key2 fd crop_type :
  (forall ts, local_date rt1 ts = local_date rt2 ts) ->
  (forall x y, num_add rt1 x y = num_add rt2 x y) ->
  (forall x n, num_div rt1 x n = num_div rt2 x n) ->
  (forall s, Permutation s (set_iter rt1 s)) ->
  (forall s, Permutation s (set_iter rt2 s)) ->
  (forall items, process_items rt1 [] items = process_items rt2 [] items) /\
  same_outcome_up_to_label_order
    (analyze_forecast rt1 (init key1) fd crop_type)
    (analyze_forecast rt2 (init key2) fd crop_type) /\
  ((forall s, set_iter rt1 s = set_iter rt2 s) ->
   analyze_forecast rt1 (init key1) fd crop_type =
   analyze_forecast rt2 (init key2) fd crop_type).
Proof.
  intros Hd Ha Hv Hp1 Hp2.
  split; [intros items; now apply process_items_runtime|].
  destruct fd as [p|]; [|repeat split].
  destruct (list_ p) as [items|] eqn:Hl.
  - rewrite (analyze_forecast_spec rt1 key1 _ _ crop_type Hl),
      (analyze_forecast_spec rt2 key2 _ _ crop_type Hl).
    rewrite (read_items_runtime rt1 rt2 Hd).
    destruct (read_items rt2 items) as [os|e]; simpl; [|auto].
    rewrite (group_all_runtime rt1 rt2 Ha). split.
    + apply Forall2_map_both, Forall_forall. intros [d data] _.
      destruct (insight_of_runtime rt1 rt2 Hv (crop_of crop_type) (d, data))
        as [Hf Hr].
      split; [exact Hf|]. split; [exact Hr|].
      exists (weather_conditions data), (set_iter rt1 (weather_conditions data)),
        (set_iter rt2 (weather_conditions data)).
      repeat split; auto.
    + intros Hs. do 2 f_equal. apply map_ext. intros [d data].
      simpl. now rewrite !Hv, Hs.
  - unfold analyze_forecast, truthy. rewrite Hl.
    destruct (other_keys p); simpl; auto.
Qed.

Lemma analyze_forecast_determined_up_to_label_order_witness :
  (forall ts, local_date utc_runtime ts = local_date reversed_runtime ts) /\
  (forall x y, num_add utc_runtime x y = num_add reversed_runtime x y) /\
  (forall x n, num_div utc_runtime x n = num_div reversed_runtime x n) /\
  (forall s, Permutation s (set_iter utc_runtime s)) /\
  (forall s, Permutation s (set_iter reversed_runtime s)) /\
  (forall items,
     process_items utc_runtime [] items = process_items reversed_runtime [] items) /\
  same_outcome_up_to_label_order
    (analyze_forecast utc_runtime (init "first key") (Some sample_payload) "maize")
    (analyze_forecast reversed_runtime (init "second key") (Some sample_payload) "maize") /\
  ((forall s, set_iter utc_runtime s = set_iter reversed_runtime s) ->
   analyze_forecast utc_runtime (init "first key") (Some sample_payload) "maize" =
   analyze_forecast reversed_runtime (init "second key") (Some sample_payload) "maize").
Proof.
  split; [reflexivity|]. split; [reflexivity|]. split; [reflexivity|].
  split; [intros s; apply Permutation_refl|].
  split; [intros s; apply Permutation_rev|].
  apply (analyze_forecast_determined_up_to_label_order utc_runtime
           reversed_runtime "first key" "second key" (Some sample_payload) "maize");
    try reflexivity.
  intros s. apply Permutation_rev.
Defined.

(** C9 as stated fails: an interpreter iterates over a set of strings in an
    order of its own (in CPython it depends on the hash seed of the
    process).  On the sample payload the day 1970-01-01 has the labels Rain,
    Thunderstorm and Clouds; two interpreters that iterate over them in
    opposite orders return different condition strings, hence different
    insight lists. *)
Lemma condition_strings_differ_between_interpreters :
  analyze_forecast utc_runtime (init "key") (Some sample_payload) "maize"
    = Ok (Some sample_insights) /\
  analyze_forecast reversed_runtime (init "key") (Some sample_payload) "maize"
    = Ok (Some reversed_insights) /\
  map Insight.conditions sample_insights
    = ["Clear"; "Rain, Thunderstorm, Clouds"]%string /\
  map Insight.conditions reversed_insights
    = ["Clear"; "Clouds, Thunderstorm, Rain"]%string /\
  analyze_forecast utc_runtime (init "key") (Some sample_payload) "maize" <>
  analyze_forecast reversed_runtime (init "key") (Some sample_payload) "maize".
Proof.
  split; [vm_compute; reflexivity|].
  split; [vm_compute; reflexivity|].
  split; [vm_compute; reflexivity|].
  split; [vm_compute; reflexivity|].
  vm_compute. discriminate.
Qed.

(** ** Grouping by date *)

Lemma insight_dates rt ci (dd : daily) :
  map Insight.date (map (insight_of rt ci) dd) = map fst dd.
Proof.
  rewrite map_map. apply map_ext. now intros [d data].
Qed.

Lemma first_occ_single d l :
  l <> [] -> Forall (eq d) l -> first_occ l = [d].
Proof.
  induction l as [|x l IH] using rev_ind; [congruence|].
  intros _ Hall. apply Forall_app in Hall as [Hl Hx].
  inversion Hx; subst. rewrite first_occ_snoc.
  destruct l as [|y l'].
  - reflexivity.
  - rewrite IH by (auto; discriminate).
    unfold set_add. simpl. now rewrite String.eqb_refl.
Qed.

Lemma filter_same_date_idem d os :
  filter (same_date d) (filter (same_date d) os) = filter (same_date d) os.
Proof.
  induction os as [|o os IH]; simpl; auto.
  destruct (same_date d o) eqn:E; simpl; rewrite ?E, IH; reflexivity.
Qed.

Lemma group_all_one_date rt d os :
  filter (same_date d) os <> [] ->
  group_all rt (filter (same_date d) os) = [(d, summarise rt (filter (same_date d) os))].
Proof.
  intros Hne. unfold group_all.
  rewrite (first_occ_single d).
  - simpl. now rewrite filter_same_date_idem.
  - destruct (filter (same_date d) os); [congruence | discriminate].
  - apply Forall_map, Forall_forall. intros o Ho.
    apply filter_In in Ho as [_ Ho]. unfold same_date in Ho.
    apply String.eqb_eq in Ho. auto.
Qed.

Lemma item_dates_of_obs rt items os d :
  read_items rt items = Ok os ->
  (In (Some d) (map (item_date rt) items) <-> In d (map o_date os)).
Proof.
  intros H. rewrite (read_items_dates _ _ _ H). split.
  - rewrite in_map_iff. intros (x & [= ->] & Hx). exact Hx.
  - apply in_map.
Qed.

(** ** The reported average *)

(** C5, as the code has it: the [avg_temp] of the insight of a date is the
    quotient the interpreter computes of the running sum of the temperatures
    observed on that date, added in the order of the payload, by their
    number, rounded to one decimal; it is the rounded arithmetic mean when
    that quotient is the exact mean.  Every date with an observation has
    exactly one insight. *)
Theorem reported_average_is_rounded_float_mean
    rt key p items crop_type insights :
  list_ p = Some items ->
  analyze_forecast rt (init key) (Some p) crop_type = Ok (Some insights) ->
  NoDup (map Insight.date insights) /\
  (forall d, In (Some d) (map (item_date rt) items) <->
             In d (map Insight.date insights)) /\
  Forall
    (fun ins =>
       let temps := temps_of (items_on rt (Insight.date ins) items) in
       temps <> [] /\
       Insight.avg_temp ins = round1 (float_mean rt temps) /\
       (float_mean rt temps == mean temps ->
        Insight.avg_temp ins = round1 (mean temps)))
    insights.
Proof.
  intros Hl Ha.
  apply analyze_forecast_inv in Ha
    as (p' & items' & os & [= <-] & Hl' & Hos & _ & ->).
  assert (items' = items) by congruence. subst items'. clear Hl'.
  rewrite insight_dates, group_all_keys. split; [apply first_occ_NoDup|]. split.
  - intros d. rewrite first_occ_In. now apply item_dates_of_obs.
  - apply Forall_map, Forall_forall. intros [d data] Hin.
    apply group_all_entry in Hin as (-> & Hne & _).
    cbn [insight_of Insight.date Insight.avg_temp]. cbv zeta.
    rewrite (read_items_temps _ _ _ (read_items_on rt d _ _ Hos)).
    rewrite summarise_avg. split; [|split].
    + destruct (filter (same_date d) os); [congruence | discriminate].
    + reflexivity.
    + apply round1_Qeq.
Qed.

Lemma reported_average_is_rounded_float_mean_witness :
  list_ sample_payload = Some sample_items /\
  analyze_forecast utc_runtime (init "key") (Some sample_payload) "maize"
    = Ok (Some sample_insights) /\
  NoDup (map Insight.date sample_insights) /\
  (forall d, In (Some d) (map (item_date utc_runtime) sample_items) <->
             In d (map Insight.date sample_insights)) /\
  Forall
    (fun ins =>
       let temps := temps_of (items_on utc_runtime (Insight.date ins) sample_items) in
       temps <> [] /\
       Insight.avg_temp ins = round1 (float_mean utc_runtime temps) /\
       (float_mean utc_runtime temps == mean temps ->
        Insight.avg_temp ins = round1 (mean temps)))
    sample_insights.
Proof.
  split; [reflexivity|]. split; [vm_compute; reflexivity|].
  apply (reported_average_is_rounded_float_mean utc_runtime "key" sample_payload
           sample_items "maize" sample_insights);
    [reflexivity | vm_compute; reflexivity].
Defined.

(** C5 as stated fails: on 1970-01-01 the temperatures 20.25 and 20 have the
    mean 20.125, and the insight of that date reports 20.1. *)
Lemma reported_average_differs_from_mean :
  analyze_forecast utc_runtime (init "key") (Some sample_payload) "maize"
    = Ok (Some sample_insights) /\
  map (fun ins => (Insight.date ins, Insight.avg_temp ins)) sample_insights
    = [("1970-01-02"%string, 360 # 10); ("1970-01-01"%string, 201 # 10)] /\
  temps_of (items_on utc_runtime "1970-01-01" sample_items) = [81 # 4; 20] /\
  mean [81 # 4; 20] == 161 # 8 /\
  ~ (201 # 10 == mean [81 # 4; 20]).
Proof.
  split; [vm_compute; reflexivity|].
  split; [vm_compute; reflexivity|].
  split; [vm_compute; reflexivity|].
  split; [vm_compute; reflexivity|].
  vm_compute. discriminate.
Qed.

(** ** Missing fields *)

Lemma weather_labels_error ws e :
  weather_labels ws = Raise e -> exists k, e = KeyError k.
Proof.
  induction ws as [|w ws IH]; simpl; [discriminate|].
  destruct (w_main w); simpl.
  - destruct (weather_labels ws); simpl; [discriminate|].
    intros [= <-]. now apply IH.
  - intros [= <-]. eauto.
Qed.

Lemma read_item_error rt it e :
  read_item rt it = Raise e -> exists k, e = KeyError k.
Proof.
  unfold read_item.
  destruct (dt it); simpl; [|intros [= <-]; eauto].
  destruct (main it) as [m|]; simpl; [|intros [= <-]; eauto].
  destruct (temp m); simpl; [|intros [= <-]; eauto].
  destruct (humidity m); simpl; [|intros [= <-]; eauto].
  destruct (weather it) as [ws|]; simpl; [|intros [= <-]; eauto].
  destruct (weather_labels ws) eqn:E; simpl; [discriminate|].
  intros [= <-]. eapply weather_labels_error, E.
Qed.

Lemma read_item_no_temp rt it :
  item_temp it = None -> exists k, read_item rt it = Raise (KeyError k).
Proof.
  unfold item_temp, read_item.
  destruct (dt it); simpl; [|eauto].
  destruct (main it) as [m|]; simpl; [|eauto].
  intros ->. simpl. eauto.
Qed.

Lemma read_items_no_temp rt it items :
  In it items -> item_temp it = None ->
  exists k, read_items rt items = Raise (KeyError k).
Proof.
  intros Hin Ht. induction items as [|x items IH]; [inversion Hin|].
  simpl. destruct (read_item rt x) as [o|e] eqn:Hx; simpl.
  - destruct Hin as [->|Hin].
    + destruct (read_item_no_temp rt it Ht) as [k Hk]. congruence.
    + destruct (IH Hin) as [k ->]. simpl. eauto.
  - destruct (read_item_error _ _ _ Hx) as [k ->]. eauto.
Qed.

Lemma weather_labels_present ws :
  forallb (fun w => present (w_main w)) ws = true ->
  exists labels, weather_labels ws = Ok labels.
Proof.
  induction ws as [|w ws IH]; simpl; [eauto|].
  rewrite andb_true_iff. intros [Hw Hws].
  destruct (w_main w); [|discriminate]. simpl.
  destruct (IH Hws) as [labels ->]. simpl. eauto.
Qed.

Lemma read_item_complete rt it :
  complete_apart_from_rain it = true -> exists o, read_item rt it = Ok o.
Proof.
  unfold complete_apart_from_rain, read_item.
  destruct (dt it); [|discriminate].
  destruct (main it) as [m|]; [|discriminate].
  destruct (weather it) as [ws|]; [|discriminate].
  rewrite !andb_true_iff. intros [[Ht Hh] Hw]. simpl.
  destruct (temp m); [|discriminate].
  destruct (humidity m); [|discriminate]. simpl.
  destruct (weather_labels_present _ Hw) as [labels ->]. simpl. eauto.
Qed.

Lemma read_items_complete rt items :
  forallb complete_apart_from_rain items = true ->
  exists os, read_items rt items = Ok os.
Proof.
  induction items as [|it items IH]; simpl; [eauto|].
  rewrite andb_true_iff. intros [Hit Hitems].
  destruct (read_item_complete rt it Hit) as [o ->].
  destruct (IH Hitems) as [os ->]. simpl. eauto.
Qed.

Lemma py_add_zero_r rt (q : Q) : py_add rt q 0 = q.
Proof. reflexivity. Qed.

Lemma add_rain_zero rt d : add_rain rt 0 d = d.
Proof. destruct d. unfold add_rain. simpl. now rewrite py_add_zero_r. Qed.

Lemma process_item_zero_rain rt dd it :
  rain it = None ->
  process_item rt dd (with_zero_rain it) = process_item rt dd it.
Proof.
  intros Hr. unfold process_item, with_zero_rain. cbn [dt main rain weather rain_3h].
  rewrite Hr.
  destruct (dt it) as [ts|]; simpl; auto.
  destruct (main it) as [m|]; simpl; auto.
  destruct (temp m) as [t|]; simpl; auto.
  rewrite (dict_modify_same _ (add_rain rt 0)) by apply add_rain_zero.
  reflexivity.
Qed.

Lemma process_items_zero_rain rt pre it post : forall dd,
  rain it = None ->
  process_items rt dd (pre ++ with_zero_rain it :: post) =
  process_items rt dd (pre ++ it :: post).
Proof.
  induction pre as [|x pre IH]; intros dd Hr; simpl.
  - now rewrite process_item_zero_rain.
  - destruct (process_item rt dd x); simpl; auto.
Qed.

(** C6: with an observation that has no temperature the analysis raises an
    error (a [KeyError]); an observation without precipitation is analysed
    as if it carried the precipitation 0, and a payload in which only
    precipitation entries are missing is analysed without error. *)
Theorem missing_temperature_raises_missing_rain_counts_zero
    rt key p items crop_type :
  list_ p = Some items ->
  (forall it, In it items -> item_temp it = None ->
     exists k, analyze_forecast rt (init key) (Some p) crop_type
               = Raise (KeyError k)) /\
  (forall pre it post,
     items = pre ++ it :: post -> rain it = None ->
     analyze_forecast rt (init key) (Some p) crop_type =
     analyze_forecast rt (init key)
       (Some {| other_keys := other_keys p;
                list_ := Some (pre ++ with_zero_rain it :: post) |}) crop_type) /\
  (forallb complete_apart_from_rain items = true ->
     exists insights,
       analyze_forecast rt (init key) (Some p) crop_type = Ok (Some insights)).
Proof.
  intros Hl. repeat split.
  - intros it Hin Ht. rewrite (analyze_forecast_spec _ _ _ _ _ Hl).
    destruct (read_items_no_temp rt it items Hin Ht) as [k ->]. simpl. eauto.
  - intros pre it post -> Hr.
    unfold analyze_forecast, truthy. cbn [other_keys list_].
    rewrite Hl, !lookup_crop_init.
    destruct (other_keys p); cbn [negb bind getitem];
      rewrite process_items_zero_rain by exact Hr; reflexivity.
  - intros Hc. rewrite (analyze_forecast_spec _ _ _ _ _ Hl).
    destruct (read_items_complete rt items Hc) as [os ->]. simpl. eauto.
Qed.

Lemma missing_temperature_raises_missing_rain_counts_zero_witness :
  list_ faulty_payload = Some faulty_items /\
  (forall it, In it faulty_items -> item_temp it = None ->
     exists k, analyze_forecast utc_runtime (init "key") (Some faulty_payload) "maize"
               = Raise (KeyError k)) /\
  (forall pre it post,
     faulty_items = pre ++ it :: post -> rain it = None ->
     analyze_forecast utc_runtime (init "key") (Some faulty_payload) "maize" =
     analyze_forecast utc_runtime (init "key")
       (Some {| other_keys := other_keys faulty_payload;
                list_ := Some (pre ++ with_zero_rain it :: post) |}) "maize") /\
  (forallb complete_apart_from_rain faulty_items = true ->
     exists insights,
       analyze_forecast utc_runtime (init "key") (Some faulty_payload) "maize"
       = Ok (Some insights)).
Proof.
  split; [reflexivity|].
  apply (missing_temperature_raises_missing_rain_counts_zero utc_runtime "key"
           faulty_payload faulty_items "maize").
  reflexivity.
Defined.

(** On the sample payloads: the reading without temperature makes the
    analysis raise [KeyError 'temp'], and the readings without a ['rain']
    entry are analysed without error. *)
Lemma missing_fields_on_samples :
  analyze_forecast utc_runtime (init "key") (Some faulty_payload) "maize"
    = Raise (KeyError "temp") /\
  forallb complete_apart_from_rain sample_items = true /\
  analyze_forecast utc_runtime (init "key") (Some sample_payload) "maize"
    = Ok (Some sample_insights).
Proof. repeat split; vm_compute; reflexivity. Qed.

(** ** One summary per date *)

Lemma item_date_in_table rt items os it :
  read_items rt items = Ok os ->
  In it items ->
  exists d, item_date rt it = Some d /\ In d (map o_date os).
Proof.
  intros Hos Hin.
  apply (in_map (item_date rt)) in Hin.
  rewrite (read_items_dates _ _ _ Hos) in Hin.
  apply in_map_iff in Hin as (d & Hd & Hin). eauto.
Qed.

Lemma group_all_has_date rt os d :
  In d (map o_date os) ->
  In (d, summarise rt (filter (same_date d) os)) (group_all rt os).
Proof.
  intros H. unfold group_all.
  apply (in_map (fun d => (d, summarise rt (filter (same_date d) os)))).
  now apply first_occ_In.
Qed.

Lemma two_distinct_elements (l : list string) d1 d2 :
  NoDup l -> d1 <> d2 ->
  (forall d, In d l <-> d = d1 \/ d = d2) ->
  List.length l = 2%nat.
Proof.
  intros Hnd Hneq Hin.
  assert (H1 : (List.length l <= List.length [d1; d2])%nat).
  { apply NoDup_incl_length; auto. intros d Hd. apply Hin in Hd.
    destruct Hd as [->| ->]; simpl; auto. }
  assert (H2 : (List.length [d1; d2] <= List.length l)%nat).
  { apply NoDup_incl_length.
    - repeat constructor; simpl; intuition.
    - intros d [<-|[<-|[]]]; apply Hin; auto. }
  simpl in *. lia.
Qed.

(** C8: the daily summaries have distinct dates; every observation belongs
    to the summary of the date of its timestamp; the summary and the insight
    of a date are those obtained from the observations of that date alone;
    observations spanning exactly two dates give exactly two insights. *)
Theorem observations_grouped_by_calendar_date rt key p items crop_type insights :
  list_ p = Some items ->
  analyze_forecast rt (init key) (Some p) crop_type = Ok (Some insights) ->
  exists daily_data,
    process_items rt [] items = Ok daily_data /\
    NoDup (map fst daily_data) /\
    (forall it, In it items ->
       exists d data, item_date rt it = Some d /\ In (d, data) daily_data) /\
    (forall d data, In (d, data) daily_data ->
       process_items rt [] (items_on rt d items) = Ok [(d, data)] /\
       temp_count data = Z.of_nat (List.length (items_on rt d items))) /\
    Forall2
      (fun entry ins =>
         Insight.date ins = fst entry /\
         analyze_forecast rt (init key) (Some (only_date rt (fst entry) p)) crop_type
           = Ok (Some [ins]))
      daily_data insights /\
    (forall d1 d2,
       d1 <> d2 ->
       (forall it, In it items ->
          item_date rt it = Some d1 \/ item_date rt it = Some d2) ->
       (exists it, In it items /\ item_date rt it = Some d1) ->
       (exists it, In it items /\ item_date rt it = Some d2) ->
       List.length daily_data = 2%nat /\ List.length insights = 2%nat).
Proof.
  intros Hl Ha.
  apply analyze_forecast_inv in Ha
    as (p' & items' & os & [= <-] & Hl' & Hos & Hproc & ->).
  assert (items' = items) by congruence. subst items'. clear Hl'.
  exists (group_all rt os). split; [exact Hproc|].
  split; [rewrite group_all_keys; apply first_occ_NoDup|].
  split; [|split; [|split]].
  - intros it Hin.
    destruct (item_date_in_table _ _ _ _ Hos Hin) as (d & Hd & Hin').
    exists d, (summarise rt (filter (same_date d) os)).
    split; [exact Hd | now apply group_all_has_date].
  - intros d data Hin. apply group_all_entry in Hin as (-> & Hne & _).
    pose proof (read_items_on rt d _ _ Hos) as Hon. split.
    + rewrite process_items_groups, Hon. simpl.
      now rewrite group_all_one_date.
    + rewrite summarise_temp_count. f_equal.
      now apply read_items_length in Hon.
  - apply Forall2_map_self, Forall_forall. intros [d data] Hin.
    split; [reflexivity|]. cbn [fst].
    apply group_all_entry in Hin as (-> & Hne & _).
    assert (Hl2 : list_ (only_date rt d p) = Some (items_on rt d items))
      by (unfold only_date; cbn [list_]; now rewrite Hl).
    rewrite (analyze_forecast_spec _ _ _ _ _ Hl2).
    rewrite (read_items_on rt d _ _ Hos). simpl.
    now rewrite group_all_one_date.
  - intros d1 d2 Hneq Hall (it1 & Hin1 & Hd1) (it2 & Hin2 & Hd2).
    assert (Hlen : List.length (group_all rt os) = 2%nat).
    { rewrite <- (length_map fst), group_all_keys.
      apply (two_distinct_elements _ d1 d2); auto using first_occ_NoDup.
      intros d. rewrite first_occ_In, <- (item_dates_of_obs rt items os d Hos).
      rewrite in_map_iff. split.
      - intros (it & Hd & Hin). destruct (Hall it Hin); left + right; congruence.
      - intros [->| ->]; eauto. }
    split; [exact Hlen|]. now rewrite length_map.
Qed.

Lemma observations_grouped_by_calendar_date_witness :
  list_ sample_payload = Some sample_items /\
  analyze_forecast utc_runtime (init "key") (Some sample_payload) "maize"
    = Ok (Some sample_insights) /\
  exists daily_data,
    process_items utc_runtime [] sample_items = Ok daily_data /\
    NoDup (map fst daily_data) /\
    (forall it, In it sample_items ->
       exists d data, item_date utc_runtime it = Some d /\ In (d, data) daily_data) /\
    (forall d data, In (d, data) daily_data ->
       process_items utc_runtime [] (items_on utc_runtime d sample_items)
         = Ok [(d, data)] /\
       temp_count data = Z.of_nat (List.length (items_on utc_runtime d sample_items))) /\
    Forall2
      (fun entry ins =>
         Insight.date ins = fst entry /\
         analyze_forecast utc_runtime (init "key")
           (Some (only_date utc_runtime (fst entry) sample_payload)) "maize"
           = Ok (Some [ins]))
      daily_data sample_insights /\
    (forall d1 d2,
       d1 <> d2 ->
       (forall it, In it sample_items ->
          item_date utc_runtime it = Some d1 \/ item_date utc_runtime it = Some d2) ->
       (exists it, In it sample_items /\ item_date utc_runtime it = Some d1) ->
       (exists it, In it sample_items /\ item_date utc_runtime it = Some d2) ->
       List.length daily_data = 2%nat /\ List.length sample_insights = 2%nat).
Proof.
  split; [reflexivity|]. split; [reflexivity|].
  apply (observations_grouped_by_calendar_date utc_runtime "key" sample_payload
           sample_items "maize" sample_insights); reflexivity.
Defined.

(** ** The order of the days *)

Lemma StronglySorted_snoc_inv {A : Type} (R : A -> A -> Prop) l x :
  StronglySorted R (l ++ [x]) ->
  StronglySorted R l /\ Forall (fun y => R y x) l.
Proof.
  induction l as [|a l IH]; simpl; intros H.
  - split; constructor.
  - apply StronglySorted_inv in H as [Hs Ha].
    destruct (IH Hs) as [Hl Hx].
    apply Forall_app in Ha as [Hal Hax]. inversion Hax; subst.
    split; constructor; auto.
Qed.

Lemma StronglySorted_snoc {A : Type} (R : A -> A -> Prop) l x :
  StronglySorted R l -> Forall (fun y => R y x) l ->
  StronglySorted R (l ++ [x]).
Proof.
  induction 1 as [|a l Hs IH Ha]; simpl; intros Hx.
  - repeat constructor.
  - inversion Hx; subst. constructor; auto.
    apply Forall_app. split; auto.
Qed.

Lemma date_le_neq_lt a b : date_le a b -> a <> b -> date_lt a b.
Proof.
  unfold date_le, date_lt, String.leb, String.ltb.
  destruct (String.compare a b) eqn:E; intros Hle Hneq;
    try reflexivity; try discriminate.
  apply String.compare_eq_iff in E. congruence.
Qed.

Lemma first_occ_sorted l :
  StronglySorted date_le l -> StronglySorted date_lt (first_occ l).
Proof.
  induction l as [|x l IH] using rev_ind; intros H.
  - constructor.
  - apply StronglySorted_snoc_inv in H as [Hl Hx].
    rewrite first_occ_snoc. unfold set_add.
    destruct (set_mem x (first_occ l)) eqn:E; auto.
    apply set_mem_false in E.
    apply StronglySorted_snoc; auto.
    apply Forall_forall. intros y Hy.
    apply date_le_neq_lt.
    + rewrite Forall_forall in Hx. apply Hx. now apply first_occ_In.
    + intros ->. contradiction.
Qed.

(** C4, as the code has it: the per-day blocks of the message follow the
    insights, and the insights follow the order in which the dates first
    occur among the observations; no sorting takes place.  The blocks are
    therefore in chronological order whenever the observations are supplied
    in non-decreasing date order.  The order is a function of the input. *)
Theorem day_blocks_follow_first_occurrence rt key p items crop_type insights :
  list_ p = Some items ->
  analyze_forecast rt (init key) (Some p) crop_type = Ok (Some insights) ->
  exists dates,
    map (item_date rt) items = map Some dates /\
    map Insight.date insights = first_occ dates /\
    (insights <> [] ->
     format_insights_for_farmers rt (Some insights) crop_type =
       join nl (header crop_type :: map (render_day rt) insights)) /\
    (StronglySorted date_le dates ->
     StronglySorted date_lt (map Insight.date insights)).
Proof.
  intros Hl Ha.
  apply analyze_forecast_inv in Ha
    as (p' & items' & os & [= <-] & Hl' & Hos & _ & ->).
  assert (items' = items) by congruence. subst items'. clear Hl'.
  exists (map o_date os).
  rewrite insight_dates, group_all_keys.
  split; [now apply read_items_dates|]. split; [reflexivity|]. split.
  - destruct (map _ (group_all rt os)); [congruence | reflexivity].
  - apply first_occ_sorted.
Qed.

Lemma day_blocks_follow_first_occurrence_witness :
  list_ ordered_payload = Some ordered_items /\
  analyze_forecast utc_runtime (init "key") (Some ordered_payload) "maize"
    = Ok (Some ordered_insights) /\
  exists dates,
    map (item_date utc_runtime) ordered_items = map Some dates /\
    map Insight.date ordered_insights = first_occ dates /\
    (ordered_insights <> [] ->
     format_insights_for_farmers utc_runtime (Some ordered_insights) "maize" =
       join nl (header "maize" :: map (render_day utc_runtime) ordered_insights)) /\
    (StronglySorted date_le dates ->
     StronglySorted date_lt (map Insight.date ordered_insights)).
Proof.
  split; [reflexivity|]. split; [reflexivity|].
  apply (day_blocks_follow_first_occurrence utc_runtime "key" ordered_payload
           ordered_items "maize" ordered_insights); reflexivity.
Defined.

(** On the ordered sample the dates of the observations are non-decreasing,
    and the days come out in chronological order. *)
Lemma ordered_sample_is_chronological :
  map (item_date utc_runtime) ordered_items =
    map Some ["1970-01-01"; "1970-01-01"; "1970-01-02"]%string /\
  StronglySorted date_le ["1970-01-01"; "1970-01-01"; "1970-01-02"]%string /\
  map Insight.date ordered_insights = ["1970-01-01"; "1970-01-02"]%string.
Proof.
  split; [reflexivity|]. split; [|reflexivity].
  repeat constructor.
Qed.

(** C4 as stated fails: the observations of 1970-01-02 come first in the
    payload, so the block of 1970-01-02 precedes the block of 1970-01-01 in
    the message. *)
Lemma day_blocks_not_chronological :
  analyze_forecast utc_runtime (init "key") (Some unordered_payload) "maize"
    = Ok (Some unordered_insights) /\
  map Insight.date unordered_insights = ["1970-01-02"; "1970-01-01"]%string /\
  date_lt "1970-01-01" "1970-01-02" /\
  ~ StronglySorted date_le (map Insight.date unordered_insights) /\
  format_insights_for_farmers utc_runtime (Some unordered_insights) "maize" =
"🌱 Weather Forecast for Maize Farmers in Nyanza 🌱


📅 1970-01-02
🌡️ Temp: 36.5°C - 36.5°C (Avg: 36.5°C)
💧 Rain: 0.5mm | Humidity: 50.0%
⛅ Conditions: Clear

🔍 Recommendations:
- ⚠️ High temperature warning! Consider shading crops.
- 🌧️ Little rain expected. Consider irrigation.


📅 1970-01-01
🌡️ Temp: 20.2°C - 20.5°C (Avg: 20.4°C)
💧 Rain: 1.0mm | Humidity: 50.0%
⛅ Conditions: Rain

🔍 Recommendations:
- 🌧️ Little rain expected. Consider irrigation.
"%string.
Proof.
  split; [vm_compute; reflexivity|].
  split; [vm_compute; reflexivity|].
  split; [vm_compute; reflexivity|].
  split; [|vm_compute; reflexivity].
  intros H. apply StronglySorted_inv in H as [_ H].
  inversion H; subst. discriminate.
Qed.

(** * Further properties of the aggregation *)

(** ** The fields of an item and of the observation read from it *)

Lemma weather_labels_fields ws labels :
  weather_labels ws = Ok labels ->
  flat_map (fun w => match w_main w with Some l => [l] | None => [] end) ws = labels.
Proof.
  revert labels. induction ws as [|w ws IH]; intros labels; simpl.
  - now intros [= <-].
  - destruct (w_main w) as [l|]; simpl; [|discriminate].
    destruct (weather_labels ws) as [ls|e]; simpl; [|discriminate].
    intros [= <-]. now rewrite (IH ls).
Qed.

Lemma read_item_all_fields rt it o :
  read_item rt it = Ok o ->
  item_rain it = obs_rain o /\
  item_humidity it = Some (o_humidity o) /\
  item_labels it = o_labels o.
Proof.
  unfold read_item, item_rain, item_humidity, item_labels, obs_rain.
  destruct (dt it) as [ts|]; simpl; [|discriminate].
  destruct (main it) as [m|]; simpl; [|discriminate].
  destruct (temp m) as [t|]; simpl; [|discriminate].
  destruct (humidity m) as [h|]; simpl; [|discriminate].
  destruct (weather it) as [ws|]; simpl; [|discriminate].
  destruct (weather_labels ws) as [labels|e] eqn:E; simpl; [|discriminate].
  intros [= <-]. simpl. repeat split.
  - destruct (rain it); reflexivity.
  - now apply weather_labels_fields.
Qed.

Lemma read_items_all_fields rt items : forall os,
  read_items rt items = Ok os ->
  rains_of items = map obs_rain os /\
  humidities_of items = map o_humidity os /\
  labels_of items = flat_map o_labels os.
Proof.
  induction items as [|it items IH]; intros os H.
  - injection H as <-. repeat split.
  - apply read_items_cons in H as (o & os' & -> & Ho & Hos).
    apply read_item_all_fields in Ho as (Hr & Hh & Hl).
    destruct (IH _ Hos) as (IHr & IHh & IHl).
    unfold rains_of, humidities_of, labels_of in *. simpl.
    rewrite Hr, Hh, Hl, IHr, IHh, IHl. repeat split.
Qed.

(** ** The other sums of a daily summary *)

Lemma summarise_rain_sum rt os :
  rain_sum (summarise rt os) = float_sum rt (map obs_rain os).
Proof.
  induction os as [|o os IH] using rev_ind.
  - reflexivity.
  - rewrite summarise_snoc, map_app. simpl map. rewrite float_sum_snoc, <- IH.
    unfold accumulate, obs_rain. destruct (o_rain o); reflexivity.
Qed.

Lemma summarise_humidity_sum rt os :
  humidity_sum (summarise rt os) = float_sum rt (map o_humidity os).
Proof.
  induction os as [|o os IH] using rev_ind.
  - reflexivity.
  - rewrite summarise_snoc, map_app. simpl map. rewrite float_sum_snoc, <- IH.
    unfold accumulate. destruct (o_rain o); reflexivity.
Qed.

Lemma summarise_conditions rt os :
  weather_conditions (summarise rt os) = first_occ (flat_map o_labels os).
Proof.
  induction os as [|o os IH] using rev_ind.
  - reflexivity.
  - rewrite summarise_snoc, flat_map_app. simpl. rewrite app_nil_r.
    unfold first_occ. rewrite fold_left_app. fold (first_occ (flat_map o_labels os)).
    rewrite <- IH. unfold accumulate. destruct (o_rain o); reflexivity.
Qed.

(** The extrema of a day are temperatures of that day. *)
Lemma summarise_extrema_attained rt os :
  os <> [] ->
  exists lo hi,
    min_temp (summarise rt os) = Fin lo /\
    max_temp (summarise rt os) = Fin hi /\
    In lo (map o_temp os) /\ In hi (map o_temp os) /\
    Forall (fun t => lo <= t <= hi) (map o_temp os).
Proof.
  induction os as [|o os IH] using rev_ind; [congruence|]. intros _.
  rewrite summarise_snoc, map_app.
  destruct (accumulate_extrema rt o (summarise rt os)) as [-> ->].
  destruct os as [|o' os'].
  - exists (o_temp o), (o_temp o). simpl. repeat split; auto.
    repeat constructor; lra.
  - destruct IH as (lo & hi & -> & -> & Hlo & Hhi & Hall); [discriminate|].
    assert (Hlohi : lo <= hi).
    { inversion Hall; subst. lra. }
    unfold py_max, py_min. simpl xltb.
    destruct (Qltb hi (o_temp o)) eqn:Ehi;
      destruct (Qltb (o_temp o) lo) eqn:Elo;
      qltb_props;
      try (exfalso; lra);
      eexists; eexists; (split; [reflexivity|]); (split; [reflexivity|]);
      (split; [apply in_or_app; simpl; auto|]);
      (split; [apply in_or_app; simpl; auto|]);
      apply Forall_app; (split; [|simpl; constructor; [lra|constructor]]);
      (eapply Forall_impl; [|exact Hall]); simpl; intros; lra.
Qed.

(** ** Which rule puts which advisory *)

Ltac advice_membership :=
  advice_cases; split;
  try solve [intuition congruence];
  try solve [intros _; simpl; auto 6];
  try solve [intros H; exfalso; revert H; no_such_advice].

Lemma heat_in_recommend ci data avg r :
  In heat_warning (recommend ci data avg r) <->
  xltb (Fin (inject_Z (risk_temp ci))) (max_temp data) = true.
Proof. advice_membership. Qed.

Lemma cold_in_recommend ci data avg r :
  In cold_warning (recommend ci data avg r) <->
  xltb (Fin (inject_Z (risk_temp ci))) (max_temp data) = false /\
  Qltb avg (inject_Z (fst (optimal_temp ci))) = true.
Proof. advice_membership. Qed.

Lemma irrigation_in_recommend ci data avg r :
  In irrigation_advice (recommend ci data avg r) <-> Qltb r 5 = true.
Proof. advice_membership. Qed.

Lemma drainage_in_recommend ci data avg r :
  In drainage_advice (recommend ci data avg r) <->
  Qltb r 5 = false /\ Qltb 20 r = true.
Proof. advice_membership. Qed.

Lemma thunderstorm_in_recommend ci data avg r :
  In thunderstorm_advice (recommend ci data avg r) <->
  set_mem "Thunderstorm" (weather_conditions data) = true.
Proof. advice_membership. Qed.

(** ** The reported figures in terms of the observations *)

Lemma summarise_avg_humidity rt g :
  num_div rt (humidity_sum (summarise rt g)) (temp_count (summarise rt g)) =
  float_mean rt (map o_humidity g).
Proof.
  unfold float_mean.
  now rewrite summarise_temp_count, summarise_humidity_sum, length_map.
Qed.

(** X1: The total rain reported for a date is the running sum of the
    precipitation of the observations of that date, added from 0 in the
    order of the payload with the addition of the interpreter, an absent
    entry counting for 0, rounded to one decimal; it is the rounded exact
    sum when the running sum is exact. *)
Theorem reported_rain_is_rounded_running_sum
    rt key p items crop_type insights :
  list_ p = Some items ->
  analyze_forecast rt (init key) (Some p) crop_type = Ok (Some insights) ->
  Forall
    (fun ins =>
       let rains := rains_of (items_on rt (Insight.date ins) items) in
       Insight.total_rain ins = round1 (float_sum rt rains) /\
       (float_sum rt rains == Qsum rains ->
        Insight.total_rain ins = round1 (Qsum rains)))
    insights.
Proof.
  intros Hl Ha. apply Forall_forall. intros ins Hin.
  day_of_insight Hl Ha ins Hin d g Hne Hg.
  destruct (read_items_all_fields _ _ _ Hg) as (-> & _ & _).
  cbv zeta. rewrite summarise_rain_sum.
  split; [reflexivity | apply round1_Qeq].
Qed.

Lemma reported_rain_is_rounded_running_sum_witness :
  list_ sample_payload = Some sample_items /\
  analyze_forecast utc_runtime (init "key") (Some sample_payload) "maize"
    = Ok (Some sample_insights) /\
  Forall
    (fun ins =>
       let rains := rains_of (items_on utc_runtime (Insight.date ins) sample_items) in
       Insight.total_rain ins = round1 (float_sum utc_runtime rains) /\
       (float_sum utc_runtime rains == Qsum rains ->
        Insight.total_rain ins = round1 (Qsum rains)))
    sample_insights.
Proof.
  split; [reflexivity|]. split; [vm_compute; reflexivity|].
  apply (reported_rain_is_rounded_running_sum utc_runtime "key" sample_payload
           sample_items "maize" sample_insights);
    [reflexivity | vm_compute; reflexivity].
Defined.

(** X2: The average humidity reported for a date is the quotient the
    interpreter computes of the running sum of the humidity of the
    observations of that date, added in the order of the payload, by their
    number, rounded to one decimal; it is the rounded exact mean when that
    quotient is exact. *)
Theorem reported_humidity_is_rounded_float_mean
    rt key p items crop_type insights :
  list_ p = Some items ->
  analyze_forecast rt (init key) (Some p) crop_type = Ok (Some insights) ->
  Forall
    (fun ins =>
       let hs := humidities_of (items_on rt (Insight.date ins) items) in
       Insight.avg_humidity ins = round1 (float_mean rt hs) /\
       (float_mean rt hs == mean hs ->
        Insight.avg_humidity ins = round1 (mean hs)))
    insights.
Proof.
  intros Hl Ha. apply Forall_forall. intros ins Hin.
  day_of_insight Hl Ha ins Hin d g Hne Hg.
  destruct (read_items_all_fields _ _ _ Hg) as (_ & -> & _).
  cbv zeta. rewrite summarise_avg_humidity.
  split; [reflexivity | apply round1_Qeq].
Qed.

Lemma reported_humidity_is_rounded_float_mean_witness :
  list_ sample_payload = Some sample_items /\
  analyze_forecast utc_runtime (init "key") (Some sample_payload) "maize"
    = Ok (Some sample_insights) /\
  Forall
    (fun ins =>
       let hs := humidities_of (items_on utc_runtime (Insight.date ins) sample_items) in
       Insight.avg_humidity ins = round1 (float_mean utc_runtime hs) /\
       (float_mean utc_runtime hs == mean hs ->
        Insight.avg_humidity ins = round1 (mean hs)))
    sample_insights.
Proof.
  split; [reflexivity|]. split; [vm_compute; reflexivity|].
  apply (reported_humidity_is_rounded_float_mean utc_runtime "key" sample_payload
           sample_items "maize" sample_insights);
    [reflexivity | vm_compute; reflexivity].
Defined.

(** X3: The minimum and maximum reported for a date are the least and the
    greatest temperature observed on that date, rounded to one decimal:
    never an infinity. *)
Theorem reported_extrema_are_rounded_extrema rt key p items crop_type insights :
  list_ p = Some items ->
  analyze_forecast rt (init key) (Some p) crop_type = Ok (Some insights) ->
  Forall
    (fun ins =>
       let temps := temps_of (items_on rt (Insight.date ins) items) in
       exists lo hi,
         In lo temps /\ In hi temps /\
         Forall (fun t => lo <= t <= hi) temps /\
         Insight.min_temp ins = Fin (round1 lo) /\
         Insight.max_temp ins = Fin (round1 hi))
    insights.
Proof.
  intros Hl Ha. apply Forall_forall. intros ins Hin.
  day_of_insight Hl Ha ins Hin d g Hne Hg.
  rewrite (read_items_temps _ _ _ Hg).
  destruct (summarise_extrema_attained rt _ Hne)
    as (lo & hi & -> & -> & Hlo & Hhi & Hall).
  exists lo, hi. repeat split; auto.
Qed.

Lemma reported_extrema_are_rounded_extrema_witness :
  list_ sample_payload = Some sample_items /\
  analyze_forecast utc_runtime (init "key") (Some sample_payload) "maize"
    = Ok (Some sample_insights) /\
  Forall
    (fun ins =>
       let temps := temps_of (items_on utc_runtime (Insight.date ins) sample_items) in
       exists lo hi,
         In lo temps /\ In hi temps /\
         Forall (fun t => lo <= t <= hi) temps /\
         Insight.min_temp ins = Fin (round1 lo) /\
         Insight.max_temp ins = Fin (round1 hi))
    sample_insights.
Proof.
  split; [reflexivity|]. split; [reflexivity|].
  apply (reported_extrema_are_rounded_extrema utc_runtime "key" sample_payload
           sample_items "maize" sample_insights); reflexivity.
Defined.

(** X4: When the interpreter iterates over a set by enumerating its
    elements, each once, the condition string of a date joins exactly the
    weather labels of the observations of that date, each once. *)
Theorem conditions_join_the_distinct_labels rt key p items crop_type insights :
  (forall s, Permutation s (set_iter rt s)) ->
  list_ p = Some items ->
  analyze_forecast rt (init key) (Some p) crop_type = Ok (Some insights) ->
  Forall
    (fun ins =>
       exists listed,
         Insight.conditions ins = join ", " listed /\
         NoDup listed /\
         (forall l, In l listed <->
                    In l (labels_of (items_on rt (Insight.date ins) items))))
    insights.
Proof.
  intros Hp Hl Ha. apply Forall_forall. intros ins Hin.
  day_of_insight Hl Ha ins Hin d g Hne Hg.
  destruct (read_items_all_fields _ _ _ Hg) as (_ & _ & ->).
  rewrite summarise_conditions.
  pose proof (Hp (first_occ (flat_map o_labels g))) as Hperm.
  exists (set_iter rt (first_occ (flat_map o_labels g))).
  split; [reflexivity|]. split.
  - eapply Permutation_NoDup; [exact Hperm | apply first_occ_NoDup].
  - intros l. split; intros H.
    + apply (proj1 (first_occ_In _ _)).
      eapply Permutation_in; [apply Permutation_sym, Hperm | exact H].
    + apply (proj2 (first_occ_In _ _)) in H.
      eapply Permutation_in; [exact Hperm | exact H].
Qed.

Lemma conditions_join_the_distinct_labels_witness :
  (forall s, Permutation s (set_iter utc_runtime s)) /\
  list_ unordered_payload = Some unordered_items /\
  analyze_forecast utc_runtime (init "key") (Some unordered_payload) "maize"
    = Ok (Some unordered_insights) /\
  Forall
    (fun ins =>
       exists listed,
         Insight.conditions ins = join ", " listed /\
         NoDup listed /\
         (forall l, In l listed <->
                    In l (labels_of (items_on utc_runtime (Insight.date ins) unordered_items))))
    unordered_insights.
Proof.
  split; [intros s; apply Permutation_refl|].
  split; [reflexivity|]. split; [vm_compute; reflexivity|].
  apply (conditions_join_the_distinct_labels utc_runtime "key" unordered_payload
           unordered_items "maize" unordered_insights);
    [intros s; apply Permutation_refl | reflexivity | vm_compute; reflexivity].
Defined.

(** ** The advisories in terms of the observations *)

Lemma recommend_nil ci data avg r :
  recommend ci data avg r = [] <->
  xltb (Fin (inject_Z (risk_temp ci))) (max_temp data) = false /\
  Qltb avg (inject_Z (fst (optimal_temp ci))) = false /\
  Qltb r 5 = false /\ Qltb 20 r = false /\
  set_mem "Thunderstorm" (weather_conditions data) = false.
Proof.
  advice_cases; split;
    try solve [intuition congruence];
    try solve [intros H; discriminate H].
Qed.

Lemma greatest_exceeds (r lo hi : Q) temps :
  In hi temps ->
  Forall (fun t => lo <= t <= hi) temps ->
  (r < hi <-> Exists (fun t => r < t) temps) /\
  (hi <= r <-> Forall (fun t => t <= r) temps).
Proof.
  intros Hin Hall. rewrite Forall_forall in Hall. split; split.
  - intros H. apply Exists_exists. eauto.
  - intros H. apply Exists_exists in H as (t & Ht & Hlt).
    destruct (Hall t Ht). lra.
  - intros H. apply Forall_forall. intros t Ht. destruct (Hall t Ht). lra.
  - intros H. rewrite Forall_forall in H. auto.
Qed.

(** X5: The heat-stress warning is issued for a date exactly when some
    observation of that date is above the risk temperature of the crop; the
    cold-stress warning exactly when none is and the average the interpreter
    computes for the date (the quotient of the running sum of its
    temperatures by their number) is below the optimal range. *)
Theorem temperature_advisories_from_observations
    rt key p items crop_type insights :
  list_ p = Some items ->
  analyze_forecast rt (init key) (Some p) crop_type = Ok (Some insights) ->
  Forall
    (fun ins =>
       let temps := temps_of (items_on rt (Insight.date ins) items) in
       let risk := inject_Z (risk_temp (crop_of crop_type)) in
       let low := inject_Z (fst (optimal_temp (crop_of crop_type))) in
       (In heat_warning (Insight.recommendations ins) <->
        Exists (fun t => risk < t) temps) /\
       (In cold_warning (Insight.recommendations ins) <->
        Forall (fun t => t <= risk) temps /\ float_mean rt temps < low))
    insights.
Proof.
  intros Hl Ha. apply Forall_forall. intros ins Hin.
  day_of_insight Hl Ha ins Hin d g Hne Hg.
  rewrite (read_items_temps _ _ _ Hg).
  destruct (summarise_extrema_attained rt _ Hne)
    as (lo & hi & Hmin & Hmax & Hlo & Hhi & Hall).
  destruct (greatest_exceeds (inject_Z (risk_temp (crop_of crop_type)))
              lo hi _ Hhi Hall) as [Hex Hfa].
  cbv zeta. rewrite heat_in_recommend, cold_in_recommend, Hmax.
  cbn [xltb]. rewrite <- Hex, <- Hfa, summarise_avg.
  rewrite Qltb_lt, Qltb_ge, Qltb_lt. tauto.
Qed.

Lemma temperature_advisories_from_observations_witness :
  list_ sample_payload = Some sample_items /\
  analyze_forecast utc_runtime (init "key") (Some sample_payload) "maize"
    = Ok (Some sample_insights) /\
  Forall
    (fun ins =>
       let temps := temps_of (items_on utc_runtime (Insight.date ins) sample_items) in
       let risk := inject_Z (risk_temp (crop_of "maize")) in
       let low := inject_Z (fst (optimal_temp (crop_of "maize"))) in
       (In heat_warning (Insight.recommendations ins) <->
        Exists (fun t => risk < t) temps) /\
       (In cold_warning (Insight.recommendations ins) <->
        Forall (fun t => t <= risk) temps /\ float_mean utc_runtime temps < low))
    sample_insights.
Proof.
  split; [reflexivity|]. split; [vm_compute; reflexivity|].
  apply (temperature_advisories_from_observations utc_runtime "key"
           sample_payload sample_items "maize" sample_insights);
    [reflexivity | vm_compute; reflexivity].
Defined.

(** X6: The irrigation advisory is issued for a date exactly when the
    running sum of the precipitation of its observations, added in the
    order of the payload with the addition of the interpreter, is less
    than 5, the drainage advisory exactly when it is more than 20, and the
    thunderstorm advisory exactly when one of its observations carries the
    label Thunderstorm. *)
Theorem rain_and_storm_advisories_from_observations
    rt key p items crop_type insights :
  list_ p = Some items ->
  analyze_forecast rt (init key) (Some p) crop_type = Ok (Some insights) ->
  Forall
    (fun ins =>
       let day_items := items_on rt (Insight.date ins) items in
       (In irrigation_advice (Insight.recommendations ins) <->
        float_sum rt (rains_of day_items) < 5) /\
       (In drainage_advice (Insight.recommendations ins) <->
        20 < float_sum rt (rains_of day_items)) /\
       (In thunderstorm_advice (Insight.recommendations ins) <->
        In "Thunderstorm"%string (labels_of day_items)))
    insights.
Proof.
  intros Hl Ha. apply Forall_forall. intros ins Hin.
  day_of_insight Hl Ha ins Hin d g Hne Hg.
  destruct (read_items_all_fields _ _ _ Hg) as (-> & _ & ->).
  cbv zeta.
  rewrite irrigation_in_recommend, drainage_in_recommend,
    thunderstorm_in_recommend.
  rewrite summarise_conditions, set_mem_In, first_occ_In.
  rewrite Qltb_lt, Qltb_ge, Qltb_lt, summarise_rain_sum.
  repeat split; try tauto; intros; lra.
Qed.

Lemma rain_and_storm_advisories_from_observations_witness :
  list_ sample_payload = Some sample_items /\
  analyze_forecast utc_runtime (init "key") (Some sample_payload) "maize"
    = Ok (Some sample_insights) /\
  Forall
    (fun ins =>
       let day_items := items_on utc_runtime (Insight.date ins) sample_items in
       (In irrigation_advice (Insight.recommendations ins) <->
        float_sum utc_runtime (rains_of day_items) < 5) /\
       (In drainage_advice (Insight.recommendations ins) <->
        20 < float_sum utc_runtime (rains_of day_items)) /\
       (In thunderstorm_advice (Insight.recommendations ins) <->
        In "Thunderstorm"%string (labels_of day_items)))
    sample_insights.
Proof.
  split; [reflexivity|]. split; [vm_compute; reflexivity|].
  apply (rain_and_storm_advisories_from_observations utc_runtime "key"
           sample_payload sample_items "maize" sample_insights);
    [reflexivity | vm_compute; reflexivity].
Defined.

(** ** Favorable days *)

(** X7: A date gets no advisory exactly when none of its temperatures is
    above the risk temperature, the average the interpreter computes for it
    is not below the optimal range, the running sum of its precipitation is
    between 5 and 20 and none of its observations is labelled Thunderstorm;
    its block of the message then closes with the notice of favorable
    conditions. *)
Theorem favorable_day_has_no_advisory rt key p items crop_type insights :
  list_ p = Some items ->
  analyze_forecast rt (init key) (Some p) crop_type = Ok (Some insights) ->
  Forall
    (fun ins =>
       let day_items := items_on rt (Insight.date ins) items in
       let risk := inject_Z (risk_temp (crop_of crop_type)) in
       let low := inject_Z (fst (optimal_temp (crop_of crop_type))) in
       (Insight.recommendations ins = [] <->
        Forall (fun t => t <= risk) (temps_of day_items) /\
        low <= float_mean rt (temps_of day_items) /\
        5 <= float_sum rt (rains_of day_items) <= 20 /\
        ~ In "Thunderstorm"%string (labels_of day_items)) /\
       (Insight.recommendations ins = [] ->
        exists upper,
          render_day rt ins = (upper ++ nl ++ favorable_notice ++ nl)%string))
    insights.
Proof.
  intros Hl Ha. apply Forall_forall. intros ins Hin. split.
  - day_of_insight Hl Ha ins Hin d g Hne Hg.
    rewrite (read_items_temps _ _ _ Hg).
    destruct (read_items_all_fields _ _ _ Hg) as (-> & _ & ->).
    destruct (summarise_extrema_attained rt _ Hne)
      as (lo & hi & Hmin & Hmax & Hlo & Hhi & Hall).
    destruct (greatest_exceeds (inject_Z (risk_temp (crop_of crop_type)))
                lo hi _ Hhi Hall) as [_ Hfa].
    rewrite recommend_nil, Hmax. cbn [xltb].
    rewrite summarise_conditions, set_mem_false, first_occ_In.
    rewrite <- Hfa, summarise_avg.
    rewrite !Qltb_ge, summarise_rain_sum. tauto.
  - intros Hnil. unfold render_day. rewrite Hnil. eexists. reflexivity.
Qed.

Lemma favorable_day_has_no_advisory_witness :
  list_ mild_payload = Some mild_items /\
  analyze_forecast utc_runtime (init "key") (Some mild_payload) "maize"
    = Ok (Some mild_insights) /\
  Forall
    (fun ins =>
       let day_items := items_on utc_runtime (Insight.date ins) mild_items in
       let risk := inject_Z (risk_temp (crop_of "maize")) in
       let low := inject_Z (fst (optimal_temp (crop_of "maize"))) in
       (Insight.recommendations ins = [] <->
        Forall (fun t => t <= risk) (temps_of day_items) /\
        low <= float_mean utc_runtime (temps_of day_items) /\
        5 <= float_sum utc_runtime (rains_of day_items) <= 20 /\
        ~ In "Thunderstorm"%string (labels_of day_items)) /\
       (Insight.recommendations ins = [] ->
        exists upper,
          render_day utc_runtime ins = (upper ++ nl ++ favorable_notice ++ nl)%string))
    mild_insights.
Proof.
  split; [reflexivity|]. split; [vm_compute; reflexivity|].
  apply (favorable_day_has_no_advisory utc_runtime "key"
           mild_payload mild_items "maize" mild_insights);
    [reflexivity | vm_compute; reflexivity].
Defined.

(** ** Errors *)

Lemma read_items_error rt items e :
  read_items rt items = Raise e -> exists k, e = KeyError k.
Proof.
  induction items as [|it items IH]; simpl; [discriminate|].
  destruct (read_item rt it) as [o|e'] eqn:Hit; simpl.
  - destruct (read_items rt items) as [os|e'']; simpl; [discriminate|].
    intros [= <-]. now apply IH.
  - intros [= <-]. eapply read_item_error, Hit.
Qed.

(** X8: The divisions by [temp_count] never divide by zero.  A day enters the
    table only together with its first observation, so every daily summary
    the loop builds counts at least one observation; and whatever the
    forecaster, the payload and the crop name, the analysis does not raise
    [ZeroDivisionError]. *)
Theorem analyze_forecast_never_divides_by_zero rt self fd crop_type :
  (forall items daily_data,
     process_items rt [] items = Ok daily_data ->
     Forall (fun entry => (1 <= temp_count (snd entry))%Z) daily_data) /\
  analyze_forecast rt self fd crop_type <> Raise ZeroDivisionError.
Proof.
  split.
  - intros items daily_data. rewrite process_items_groups.
    destruct (read_items rt items) as [os|e]; simpl; [|discriminate].
    intros [= <-]. apply Forall_forall. intros entry Hin.
    apply group_all_counts in Hin. lia.
  - unfold analyze_forecast. destruct fd as [p|]; [|discriminate].
    destruct (negb (truthy (Some p))); [discriminate|].
    unfold lookup_crop.
    destruct (dict_get "maize" (crop_data self)) as [maize|]; simpl;
      [|discriminate].
    destruct (list_ p) as [items|]; simpl; [|discriminate].
    rewrite process_items_groups.
    destruct (read_items rt items) as [os|e] eqn:Hos; simpl.
    + rewrite make_insights_ok; [discriminate|].
      apply Forall_forall. intros entry. apply group_all_counts.
    + destruct (read_items_error _ _ _ Hos) as [k ->]. discriminate.
Qed.

Lemma weather_labels_missing ws :
  forallb (fun w => present (w_main w)) ws = false ->
  weather_labels ws = Raise (KeyError "main").
Proof.
  induction ws as [|w ws IH]; simpl; [discriminate|].
  destruct (w_main w); simpl; auto.
  intros H. now rewrite (IH H).
Qed.

Lemma read_item_first_missing_key rt it k :
  first_missing_key it = Some k -> read_item rt it = Raise (KeyError k).
Proof.
  unfold first_missing_key, read_item.
  destruct (dt it); simpl; [|now intros [= <-]].
  destruct (main it) as [m|]; simpl; [|now intros [= <-]].
  destruct (temp m); simpl; [|now intros [= <-]].
  destruct (humidity m); simpl; [|now intros [= <-]].
  destruct (weather it) as [ws|]; simpl; [|now intros [= <-]].
  destruct (forallb _ ws) eqn:E; [discriminate|].
  intros [= <-]. now rewrite (weather_labels_missing _ E).
Qed.

Lemma first_missing_key_complete it :
  first_missing_key it = None <-> complete_apart_from_rain it = true.
Proof.
  unfold first_missing_key, complete_apart_from_rain.
  destruct (dt it); [|split; discriminate].
  destruct (main it) as [m|]; [|split; discriminate].
  destruct (temp m); simpl;
    [|destruct (weather it); split; discriminate].
  destruct (humidity m); simpl;
    [|destruct (weather it); split; discriminate].
  destruct (weather it) as [ws|]; [|split; discriminate].
  destruct (forallb _ ws); split; auto; discriminate.
Qed.

Lemma read_items_stops_at rt pre it post e :
  forallb complete_apart_from_rain pre = true ->
  read_item rt it = Raise e ->
  read_items rt (pre ++ it :: post) = Raise e.
Proof.
  intros Hpre Hit. induction pre as [|x pre IH]; simpl in *.
  - now rewrite Hit.
  - apply andb_true_iff in Hpre as [Hx Hpre].
    destruct (read_item_complete rt x Hx) as [o ->]. simpl.
    now rewrite (IH Hpre).
Qed.

(** X9: The analysis stops at the first observation that lacks a key, with the
    [KeyError] of the first key that observation lacks in the order dt, main,
    temp, humidity, weather, main of a weather entry; what follows that
    observation is not looked at and no partial result is returned. *)
Theorem first_incomplete_observation_decides_the_error
    rt key p pre it post k crop_type :
  list_ p = Some (pre ++ it :: post) ->
  forallb complete_apart_from_rain pre = true ->
  first_missing_key it = Some k ->
  analyze_forecast rt (init key) (Some p) crop_type = Raise (KeyError k).
Proof.
  intros Hl Hpre Hk. rewrite (analyze_forecast_spec _ _ _ _ _ Hl).
  rewrite (read_items_stops_at rt pre it post (KeyError k)); auto.
  now apply read_item_first_missing_key.
Qed.

Lemma first_incomplete_observation_decides_the_error_witness :
  list_ faulty_payload = Some (sample_items ++ no_temp_item :: []) /\
  forallb complete_apart_from_rain sample_items = true /\
  first_missing_key no_temp_item = Some "temp"%string /\
  analyze_forecast utc_runtime (init "key") (Some faulty_payload) "maize"
    = Raise (KeyError "temp").
Proof.
  split; [reflexivity|]. split; [reflexivity|]. split; [reflexivity|].
  apply (first_incomplete_observation_decides_the_error utc_runtime "key"
           faulty_payload sample_items no_temp_item [] "temp" "maize");
    reflexivity.
Defined.

(** ** Payloads without observations *)

Lemma analyze_forecast_none_inv rt key p crop_type :
  analyze_forecast rt (init key) (Some p) crop_type = Ok None ->
  p = {| other_keys := []; list_ := None |}.
Proof.
  destruct p as [ks l]. intros H. destruct l as [items|].
  - rewrite (analyze_forecast_spec rt key _ items) in H by reflexivity.
    destruct (read_items rt items); discriminate.
  - destruct ks; [reflexivity | discriminate].
Qed.

(** X10: The analysis returns [None] exactly when it is given [None] or a dict
    without any key; a dict that has keys but no ['list'] raises
    [KeyError 'list']. *)
Theorem analyze_forecast_none_iff_no_payload rt key fd crop_type :
  (analyze_forecast rt (init key) fd crop_type = Ok None <->
   fd = None \/ fd = Some {| other_keys := []; list_ := None |}) /\
  (forall k ks,
     analyze_forecast rt (init key)
       (Some {| other_keys := k :: ks; list_ := None |}) crop_type
     = Raise (KeyError "list")).
Proof.
  split.
  - split.
    + destruct fd as [p|]; auto. intros H. right.
      now rewrite (analyze_forecast_none_inv _ _ _ _ H).
    + intros [->| ->]; reflexivity.
  - intros k ks. reflexivity.
Qed.

(** ** The message *)

Lemma join_header_first_byte (h : string) (blocks : list string) c rest :
  h = String c rest ->
  exists rest', join nl (h :: blocks) = String c rest'.
Proof.
  intros ->. destruct blocks as [|b blocks]; simpl; eauto.
Qed.

(** X11: The message is the notice that no weather data is available exactly when
    the renderer is given [None] or the empty list: for one insight or more
    it starts with the header naming the crop. *)
Theorem no_data_message_iff_no_insight rt insights crop_type :
  (format_insights_for_farmers rt insights crop_type = no_data_message <->
   insights = None \/ insights = Some []) /\
  (forall i rest,
     insights = Some (i :: rest) ->
     exists blocks,
       format_insights_for_farmers rt insights crop_type =
         (header crop_type ++ nl ++ blocks)%string).
Proof.
  split; [split|].
  - destruct insights as [[|i rest]|]; auto.
    intros H. exfalso.
    destruct (join_header_first_byte (header crop_type)
                (map (render_day rt) (i :: rest)) "240"%char
                (String "159" (String "140" (String "177"
                   (" Weather Forecast for " ++ capitalize crop_type
                      ++ " Farmers in Nyanza 🌱" ++ nl)%string))))
      as [rest' Hr]; [reflexivity|].
    unfold format_insights_for_farmers in H. rewrite Hr in H.
    discriminate H.
  - intros [->| ->]; reflexivity.
  - intros i rest ->. simpl. eexists. reflexivity.
Qed.

(** ** Counting the observations *)

Lemma total_count_app dd dd' :
  total_count (dd ++ dd') = (total_count dd + total_count dd')%Z.
Proof.
  induction dd as [|e dd IH]; simpl; auto. rewrite IH. lia.
Qed.

Lemma accumulate_count rt o d :
  temp_count (accumulate rt o d) = (temp_count d + 1)%Z.
Proof. unfold accumulate. destruct (o_rain o); reflexivity. Qed.

Lemma total_count_cons entry dd :
  total_count (entry :: dd) = (temp_count (snd entry) + total_count dd)%Z.
Proof. reflexivity. Qed.

Lemma total_count_modify rt k o (dd : daily) :
  dict_get k dd <> None ->
  total_count (dict_modify k (accumulate rt o) dd) = (total_count dd + 1)%Z.
Proof.
  induction dd as [|[k' v] dd IH]; cbn [dict_get dict_modify]; [congruence|].
  destruct (String.eqb k k'); rewrite !total_count_cons; cbn [snd].
  - intros _. rewrite accumulate_count. lia.
  - intros H. rewrite (IH H). lia.
Qed.

Lemma ensure_spec k (dd : daily) :
  dict_get k (ensure k dd) <> None /\
  total_count (ensure k dd) = total_count dd.
Proof.
  unfold ensure, dict_mem.
  destruct (dict_get k dd) as [v|] eqn:E.
  - rewrite E. split; [discriminate | reflexivity].
  - rewrite (dict_set_fresh _ _ _ E). split.
    + intros H. apply dict_get_keys in H. apply H.
      rewrite map_app, in_app_iff. simpl. auto.
    + rewrite total_count_app. simpl. lia.
Qed.

Lemma total_count_group_all rt os :
  total_count (group_all rt os) = Z.of_nat (List.length os).
Proof.
  induction os as [|o os IH] using rev_ind.
  - reflexivity.
  - rewrite group_all_snoc. unfold step.
    destruct (ensure_spec (o_date o) (group_all rt os)) as [Hk Hc].
    rewrite (total_count_modify rt _ _ _ Hk), Hc, IH, length_app. simpl. lia.
Qed.

Lemma first_occ_length l : (List.length (first_occ l) <= List.length l)%nat.
Proof.
  induction l as [|x l IH] using rev_ind; [simpl; lia|].
  rewrite first_occ_snoc, length_app. unfold set_add. simpl.
  destruct (set_mem x (first_occ l)); [lia|]. rewrite length_app. simpl. lia.
Qed.

(** X13: The observation counts of the days add up to the number of observations
    of the payload: every observation is counted once.  There are at most as
    many days as observations, and no day exactly when there is no
    observation. *)
Theorem observation_counts_add_up rt items daily_data :
  process_items rt [] items = Ok daily_data ->
  total_count daily_data = Z.of_nat (List.length items) /\
  (List.length daily_data <= List.length items)%nat /\
  (daily_data = [] <-> items = []).
Proof.
  rewrite process_items_groups.
  destruct (read_items rt items) as [os|e] eqn:Hos; simpl; [|discriminate].
  intros [= <-]. pose proof (read_items_length _ _ _ Hos) as Hlen.
  split; [|split].
  - now rewrite total_count_group_all, Hlen.
  - rewrite <- (length_map fst), group_all_keys, <- Hlen,
      <- (length_map o_date os).
    apply first_occ_length.
  - split.
    + intros H. destruct items as [|it items]; auto. exfalso.
      destruct os as [|o os]; [discriminate Hlen|].
      assert (Hin : In (o_date o) (map fst (group_all rt (o :: os)))).
      { rewrite group_all_keys. apply first_occ_In. now left. }
      rewrite H in Hin. inversion Hin.
    + intros ->. injection Hos as <-. reflexivity.
Qed.

Lemma observation_counts_add_up_witness :
  process_items utc_runtime [] sample_items = Ok sample_daily /\
  total_count sample_daily = Z.of_nat (List.length sample_items) /\
  (List.length sample_daily <= List.length sample_items)%nat /\
  (sample_daily = [] <-> sample_items = []).
Proof.
  split; [reflexivity|].
  apply (observation_counts_add_up utc_runtime sample_items sample_daily).
  reflexivity.
Defined.

(** ** The crop name *)

Lemma recommend_other_advice ci1 ci2 data avg r :
  filter (fun a => negb (is_temperature_advice a)) (recommend ci1 data avg r) =
  filter (fun a => negb (is_temperature_advice a)) (recommend ci2 data avg r).
Proof.
  rewrite !recommend_parts, !filter_app. f_equal.
  unfold temperature_advice.
  repeat match goal with
  | |- context [if ?c then _ else _] => destruct c
  end; reflexivity.
Qed.

(** X14: The crop name bears on the temperature advisories only: for two crop
    names, known or not, the analyses of one payload succeed together and
    give, day by day, the same date, figures and condition labels and the
    same rainfall and thunderstorm advisories. *)
Theorem crop_changes_only_temperature_advisories
    rt key p items crop1 crop2 insights1 :
  list_ p = Some items ->
  analyze_forecast rt (init key) (Some p) crop1 = Ok (Some insights1) ->
  exists insights2,
    analyze_forecast rt (init key) (Some p) crop2 = Ok (Some insights2) /\
    Forall2
      (fun i1 i2 =>
         report i1 = report i2 /\
         filter (fun a => negb (is_temperature_advice a)) (Insight.recommendations i1) =
         filter (fun a => negb (is_temperature_advice a)) (Insight.recommendations i2))
      insights1 insights2.
Proof.
  intros Hl Ha.
  apply analyze_forecast_inv in Ha
    as (p' & items' & os & [= <-] & Hl' & Hos & _ & ->).
  assert (items' = items) by congruence. subst items'. clear Hl'.
  rewrite (analyze_forecast_spec _ _ _ _ crop2 Hl), Hos. simpl.
  eexists. split; [reflexivity|].
  apply Forall2_map_both, Forall_forall. intros [d data] _.
  split; [reflexivity|]. apply recommend_other_advice.
Qed.

Lemma crop_changes_only_temperature_advisories_witness :
  list_ sample_payload = Some sample_items /\
  analyze_forecast utc_runtime (init "key") (Some sample_payload) "maize"
    = Ok (Some sample_insights) /\
  exists insights2,
    analyze_forecast utc_runtime (init "key") (Some sample_payload) "tea"
      = Ok (Some insights2) /\
    Forall2
      (fun i1 i2 =>
         report i1 = report i2 /\
         filter (fun a => negb (is_temperature_advice a)) (Insight.recommendations i1) =
         filter (fun a => negb (is_temperature_advice a)) (Insight.recommendations i2))
      sample_insights insights2.
Proof.
  split; [reflexivity|]. split; [reflexivity|].
  apply (crop_changes_only_temperature_advisories utc_runtime "key"
           sample_payload sample_items "maize" "tea" sample_insights);
    reflexivity.
Defined.

(** ** The order of the observations *)

Lemma filter_perm {A : Type} (f : A -> bool) l l' :
  Permutation l l' -> Permutation (filter f l) (filter f l').
Proof.
  induction 1 as [|x l l' _ IH|x y l|l l' l'' _ IH1 _ IH2]; simpl.
  - constructor.
  - destruct (f x); auto.
  - destruct (f x), (f y); auto. constructor.
  - eapply Permutation_trans; eauto.
Qed.

Lemma read_items_perm rt items items' :
  Permutation items items' ->
  forall os, read_items rt items = Ok os ->
  exists os', read_items rt items' = Ok os' /\ Permutation os os'.
Proof.
  induction 1 as [|x l l' _ IH|x y l|l l' l'' _ IH1 _ IH2]; intros os Hos.
  - exists os. split; auto.
  - apply read_items_cons in Hos as (o & os1 & -> & Ho & Hos1).
    destruct (IH _ Hos1) as (os1' & Hos1' & Hp).
    exists (o :: os1'). simpl. rewrite Ho, Hos1'. simpl. auto.
  - apply read_items_cons in Hos as (oy & os1 & -> & Hy & Hos1).
    apply read_items_cons in Hos1 as (ox & os2 & -> & Hx & Hos2).
    exists (ox :: oy :: os2). simpl. rewrite Hx, Hy, Hos2. simpl.
    split; [reflexivity | constructor].
  - destruct (IH1 _ Hos) as (os' & Hos' & Hp1).
    destruct (IH2 _ Hos') as (os'' & Hos'' & Hp2).
    exists os''. split; auto. eapply Permutation_trans; eauto.
Qed.

Lemma Qltb_Qeq a a' b b' : a == a' -> b == b' -> Qltb a b = Qltb a' b'.
Proof.
  intros Ha Hb.
  destruct (Qltb a b) eqn:E, (Qltb a' b') eqn:E'; auto;
    qltb_props; exfalso; lra.
Qed.

Lemma set_mem_ext x s s' :
  (forall y, In y s <-> In y s') -> set_mem x s = set_mem x s'.
Proof.
  intros H.
  destruct (set_mem x s) eqn:E, (set_mem x s') eqn:E'; auto.
  - apply set_mem_In in E. apply set_mem_false in E'. apply H in E. tauto.
  - apply set_mem_false in E. apply set_mem_In in E'. apply H in E'. tauto.
Qed.

Lemma insight_of_perm rt ci d g g' :
  g <> [] -> Permutation g g' ->
  Insight.min_temp (insight_of rt ci (d, summarise rt g')) =
    Insight.min_temp (insight_of rt ci (d, summarise rt g)) /\
  Insight.max_temp (insight_of rt ci (d, summarise rt g')) =
    Insight.max_temp (insight_of rt ci (d, summarise rt g)) /\
  (In heat_warning (Insight.recommendations (insight_of rt ci (d, summarise rt g'))) <->
   In heat_warning (Insight.recommendations (insight_of rt ci (d, summarise rt g)))) /\
  (In thunderstorm_advice
      (Insight.recommendations (insight_of rt ci (d, summarise rt g'))) <->
   In thunderstorm_advice
      (Insight.recommendations (insight_of rt ci (d, summarise rt g)))).
Proof.
  intros Hne Hp.
  assert (Hne' : g' <> []).
  { intros ->. apply Permutation_sym, Permutation_nil in Hp. contradiction. }
  assert (Hpt : Permutation (map o_temp g) (map o_temp g'))
    by now apply Permutation_map.
  destruct (summarise_extrema_attained rt _ Hne)
    as (lo & hi & Hmin & Hmax & Hlo & Hhi & Hall).
  destruct (summarise_extrema_attained rt _ Hne')
    as (lo' & hi' & Hmin' & Hmax' & Hlo' & Hhi' & Hall').
  rewrite Forall_forall in Hall, Hall'.
  assert (Ehi : hi == hi').
  { destruct (Hall' hi (Permutation_in _ Hpt Hhi)).
    destruct (Hall hi' (Permutation_in _ (Permutation_sym Hpt) Hhi')). lra. }
  assert (Elo : lo == lo').
  { destruct (Hall' lo (Permutation_in _ Hpt Hlo)).
    destruct (Hall lo' (Permutation_in _ (Permutation_sym Hpt) Hlo')). lra. }
  cbn [insight_of Insight.max_temp Insight.min_temp Insight.recommendations].
  rewrite !heat_in_recommend, !thunderstorm_in_recommend.
  rewrite Hmin, Hmax, Hmin', Hmax'. cbn [xround1 xltb].
  rewrite (round1_Qeq _ _ Ehi), (round1_Qeq _ _ Elo).
  rewrite (Qltb_Qeq _ _ hi hi' (Qeq_refl _) Ehi).
  rewrite !summarise_conditions.
  rewrite (set_mem_ext "Thunderstorm" (first_occ (flat_map o_labels g'))
             (first_occ (flat_map o_labels g))).
  - repeat split; auto.
  - intros y. rewrite !first_occ_In, !in_flat_map. split.
    + intros (o & Ho & Hy). exists o. split; auto.
      eapply Permutation_in; [apply Permutation_sym|]; eauto.
    + intros (o & Ho & Hy). exists o. split; auto.
      eapply Permutation_in; eauto.
Qed.

(** X15: Supplying the observations of a payload in another order changes
    no extremum, no heat-stress warning and no thunderstorm advisory: the
    analysis still succeeds, gives as many days, and to each day corresponds
    a day of the same date with the same minimum and maximum temperature,
    warned of heat or of a thunderstorm exactly when the first is.  (The
    running sums, which are rounded at each addition, the order of the days
    and the order of the joined labels may change.) *)
Theorem observation_order_changes_no_extremum
    rt key p p' items items' crop_type insights :
  list_ p = Some items ->
  list_ p' = Some items' ->
  Permutation items items' ->
  analyze_forecast rt (init key) (Some p) crop_type = Ok (Some insights) ->
  exists insights',
    analyze_forecast rt (init key) (Some p') crop_type = Ok (Some insights') /\
    List.length insights' = List.length insights /\
    forall ins, In ins insights ->
      exists ins',
        In ins' insights' /\
        Insight.date ins' = Insight.date ins /\
        Insight.min_temp ins' = Insight.min_temp ins /\
        Insight.max_temp ins' = Insight.max_temp ins /\
        (In heat_warning (Insight.recommendations ins') <->
         In heat_warning (Insight.recommendations ins)) /\
        (In thunderstorm_advice (Insight.recommendations ins') <->
         In thunderstorm_advice (Insight.recommendations ins)).
Proof.
  intros Hl Hl' Hp Ha.
  apply analyze_forecast_inv in Ha
    as (p0 & items0 & os & [= <-] & Hl0 & Hos & _ & ->).
  assert (items0 = items) by congruence. subst items0. clear Hl0.
  destruct (read_items_perm rt _ _ Hp _ Hos) as (os' & Hos' & Hpo).
  rewrite (analyze_forecast_spec _ _ _ _ crop_type Hl'), Hos'. simpl.
  eexists. split; [reflexivity|]. split.
  - rewrite !length_map.
    rewrite <- (length_map fst (group_all rt os')),
      <- (length_map fst (group_all rt os)).
    rewrite !group_all_keys. apply Permutation_length.
    apply NoDup_Permutation; try apply first_occ_NoDup.
    intros d. rewrite !first_occ_In. split; apply Permutation_in;
      [apply Permutation_sym|]; now apply Permutation_map.
  - intros ins Hin.
    apply in_map_iff in Hin as ([d data] & <- & Hin).
    apply group_all_entry in Hin as (-> & Hne & Hd).
    exists (insight_of rt (crop_of crop_type)
              (d, summarise rt (filter (same_date d) os'))).
    split.
    + apply in_map, group_all_has_date.
      eapply Permutation_in; [|exact Hd]. now apply Permutation_map.
    + split; [reflexivity|].
      apply insight_of_perm; auto. now apply filter_perm.
Qed.

Lemma observation_order_changes_no_extremum_witness :
  list_ unordered_payload = Some unordered_items /\
  list_ ordered_payload = Some ordered_items /\
  Permutation unordered_items ordered_items /\
  analyze_forecast utc_runtime (init "key") (Some unordered_payload) "maize"
    = Ok (Some unordered_insights) /\
  exists insights',
    analyze_forecast utc_runtime (init "key") (Some ordered_payload) "maize"
      = Ok (Some insights') /\
    List.length insights' = List.length unordered_insights /\
    forall ins, In ins unordered_insights ->
      exists ins',
        In ins' insights' /\
        Insight.date ins' = Insight.date ins /\
        Insight.min_temp ins' = Insight.min_temp ins /\
        Insight.max_temp ins' = Insight.max_temp ins /\
        (In heat_warning (Insight.recommendations ins') <->
         In heat_warning (Insight.recommendations ins)) /\
        (In thunderstorm_advice (Insight.recommendations ins') <->
         In thunderstorm_advice (Insight.recommendations ins)).
Proof.
  assert (Hp : Permutation unordered_items ordered_items).
  { unfold unordered_items, ordered_items.
    eapply perm_trans; [apply perm_swap|]. apply perm_skip, perm_swap. }
  split; [reflexivity|]. split; [reflexivity|]. split; [exact Hp|].
  split; [vm_compute; reflexivity|].
  apply (observation_order_changes_no_extremum utc_runtime "key"
           unordered_payload ordered_payload unordered_items ordered_items
           "maize" unordered_insights);
    [reflexivity | reflexivity | exact Hp | vm_compute; reflexivity].
Defined.

(** X20: The reported average of a day depends on the order in which its
    observations are supplied, because each addition to the running sum is
    rounded: the readings 19.0, 19.63 and 20.32 of one date are reported
    with the average 19.6, and the same readings in the opposite order with
    the average 19.7; the extrema are 19.0 and 20.3 in both orders. *)
Theorem observation_order_can_change_the_average :
  Permutation rising_items falling_items /\
  temps_of rising_items
    = [19; 5525353792830177 # 281474976710656; 2859785763380265 # 140737488355328] /\
  analyze_forecast utc_runtime (init "key")
    (Some {| other_keys := ["cod"]; list_ := Some rising_items |}) "maize"
    = Ok (Some rising_insights) /\
  analyze_forecast utc_runtime (init "key")
    (Some {| other_keys := ["cod"]; list_ := Some falling_items |}) "maize"
    = Ok (Some falling_insights) /\
  map (fun ins => (Insight.min_temp ins, Insight.avg_temp ins, Insight.max_temp ins))
      rising_insights
    = [(Fin (190 # 10), 196 # 10, Fin (203 # 10))] /\
  map (fun ins => (Insight.min_temp ins, Insight.avg_temp ins, Insight.max_temp ins))
      falling_insights
    = [(Fin (190 # 10), 197 # 10, Fin (203 # 10))].
Proof.
  split.
  { unfold rising_items, falling_items.
    eapply perm_trans; [apply perm_skip, perm_swap|].
    eapply perm_trans; [apply perm_swap|].
    apply perm_skip, perm_swap. }
  repeat split; vm_compute; reflexivity.
Qed.

(** ** Payloads of different dates *)

Lemma dict_get_app_absent {V : Type} k (d d' : list (string * V)) :
  ~ In k (map fst d) -> dict_get k (d ++ d') = dict_get k d'.
Proof.
  induction d as [|[k' v] d IH]; simpl; auto.
  destruct (String.eqb k k') eqn:E.
  - apply String.eqb_eq in E. subst k'. tauto.
  - intros H. apply IH. tauto.
Qed.

Lemma step_app_r rt (G1 G2 : daily) o :
  ~ In (o_date o) (map fst G1) ->
  step rt (G1 ++ G2) o = G1 ++ step rt G2 o.
Proof.
  intros Hk. unfold step, ensure, dict_mem.
  rewrite (dict_get_app_absent _ _ _ Hk).
  destruct (dict_get (o_date o) G2) as [v|] eqn:E.
  - now apply dict_modify_app_r.
  - rewrite !dict_set_fresh; auto.
    + rewrite <- app_assoc. now apply dict_modify_app_r.
    + now rewrite (dict_get_app_absent _ _ _ Hk).
Qed.

Lemma group_all_app rt os1 os2 :
  (forall o1 o2, In o1 os1 -> In o2 os2 -> o_date o1 <> o_date o2) ->
  group_all rt (os1 ++ os2) = group_all rt os1 ++ group_all rt os2.
Proof.
  induction os2 as [|o os2 IH] using rev_ind; intros Hd.
  - rewrite !app_nil_r. reflexivity.
  - rewrite app_assoc, !group_all_snoc, IH.
    + apply step_app_r. rewrite group_all_keys, first_occ_In, in_map_iff.
      intros (o1 & Ho1 & Hin). apply (Hd o1 o); auto.
      apply in_or_app. simpl. auto.
    + intros o1 o2 H1 H2. apply Hd; auto. apply in_or_app. auto.
Qed.

Lemma read_items_app rt items1 items2 os1 os2 :
  read_items rt items1 = Ok os1 ->
  read_items rt items2 = Ok os2 ->
  read_items rt (items1 ++ items2) = Ok (os1 ++ os2).
Proof.
  revert os1. induction items1 as [|it items1 IH]; intros os1 H1 H2.
  - injection H1 as <-. exact H2.
  - apply read_items_cons in H1 as (o & os & -> & Ho & Hos).
    simpl. rewrite Ho, (IH _ Hos H2). reflexivity.
Qed.

Lemma read_items_In rt items os o :
  read_items rt items = Ok os -> In o os ->
  exists it, In it items /\ item_date rt it = Some (o_date o).
Proof.
  revert os. induction items as [|it items IH]; intros os H Hin.
  - injection H as <-. inversion Hin.
  - apply read_items_cons in H as (o' & os' & -> & Ho & Hos).
    destruct Hin as [->|Hin].
    + exists it. split; [now left|]. now apply read_item_fields in Ho.
    + destruct (IH _ Hos Hin) as (it' & Hit' & Hd). exists it'. split; auto.
      now right.
Qed.

(** X16: When no date of a first payload is a date of a second one, analysing
    the observations of the first followed by those of the second gives the
    insights of the first followed by the insights of the second. *)
Theorem analysis_of_other_dates_appends
    rt key p1 p2 p items1 items2 crop_type insights1 insights2 :
  list_ p1 = Some items1 ->
  list_ p2 = Some items2 ->
  list_ p = Some (items1 ++ items2) ->
  (forall it1 it2, In it1 items1 -> In it2 items2 ->
     item_date rt it1 <> item_date rt it2) ->
  analyze_forecast rt (init key) (Some p1) crop_type = Ok (Some insights1) ->
  analyze_forecast rt (init key) (Some p2) crop_type = Ok (Some insights2) ->
  analyze_forecast rt (init key) (Some p) crop_type
    = Ok (Some (insights1 ++ insights2)).
Proof.
  intros Hl1 Hl2 Hl Hd Ha1 Ha2.
  apply analyze_forecast_inv in Ha1
    as (q1 & l1 & os1 & [= <-] & Hq1 & Hos1 & _ & ->).
  apply analyze_forecast_inv in Ha2
    as (q2 & l2 & os2 & [= <-] & Hq2 & Hos2 & _ & ->).
  assert (l1 = items1) by congruence. assert (l2 = items2) by congruence.
  subst l1 l2.
  rewrite (analyze_forecast_spec _ _ _ _ crop_type Hl).
  rewrite (read_items_app _ _ _ _ _ Hos1 Hos2). simpl.
  rewrite group_all_app, map_app; [reflexivity|].
  intros o1 o2 H1 H2 E.
  destruct (read_items_In _ _ _ _ Hos1 H1) as (it1 & Hit1 & E1).
  destruct (read_items_In _ _ _ _ Hos2 H2) as (it2 & Hit2 & E2).
  apply (Hd it1 it2); auto. congruence.
Qed.

Lemma analysis_of_other_dates_appends_witness :
  list_ first_day_payload = Some first_day_items /\
  list_ second_day_payload = Some second_day_items /\
  list_ ordered_payload = Some (first_day_items ++ second_day_items) /\
  (forall it1 it2, In it1 first_day_items -> In it2 second_day_items ->
     item_date utc_runtime it1 <> item_date utc_runtime it2) /\
  analyze_forecast utc_runtime (init "key") (Some first_day_payload) "maize"
    = Ok (Some first_day_insights) /\
  analyze_forecast utc_runtime (init "key") (Some second_day_payload) "maize"
    = Ok (Some second_day_insights) /\
  analyze_forecast utc_runtime (init "key") (Some ordered_payload) "maize"
    = Ok (Some (first_day_insights ++ second_day_insights)).
Proof.
  assert (Hd : forall it1 it2, In it1 first_day_items -> In it2 second_day_items ->
                 item_date utc_runtime it1 <> item_date utc_runtime it2).
  { intros it1 it2 [<-|[<-|[]]] [<-|[]]; vm_compute; discriminate. }
  split; [reflexivity|]. split; [reflexivity|]. split; [reflexivity|].
  split; [exact Hd|]. split; [reflexivity|]. split; [reflexivity|].
  apply (analysis_of_other_dates_appends utc_runtime "key" first_day_payload
           second_day_payload ordered_payload first_day_items second_day_items
           "maize" first_day_insights second_day_insights);
    try reflexivity.
  exact Hd.
Defined.

(** ** The recommendations in a block *)

Lemma string_app_nil_r (a : string) : (a ++ "")%string = a.
Proof. induction a as [|c a IH]; simpl; congruence. Qed.

Lemma string_app_assoc (a b c : string) :
  ((a ++ b) ++ c)%string = (a ++ b ++ c)%string.
Proof. induction a as [|x a IH]; simpl; congruence. Qed.

Lemma fold_left_advisory_lines (recs : list string) : forall start : string,
  fold_left (fun m r => (m ++ "- " ++ r ++ nl)%string) recs start =
  (start ++ join "" (map advisory_line recs))%string.
Proof.
  induction recs as [|r recs IH]; intros start.
  - simpl. now rewrite string_app_nil_r.
  - cbn [fold_left map]. rewrite IH, string_app_assoc. f_equal.
    destruct recs as [|r' recs'].
    + simpl. now rewrite string_app_nil_r.
    + reflexivity.
Qed.

(** X18: When a day has advisories, its block of the message closes with the
    heading of the recommendations followed by one line per advisory, each
    starting with a dash, in the order of the recommendations. *)
Theorem block_lists_the_recommendations_in_order rt (d : Insight.t) :
  Insight.recommendations d <> [] ->
  exists upper,
    render_day rt d =
      (upper ++ nl ++ "🔍 Recommendations:" ++ nl
         ++ join "" (map advisory_line (Insight.recommendations d)))%string.
Proof.
  intros Hne. unfold render_day.
  destruct (Insight.recommendations d) as [|r recs] eqn:E; [congruence|].
  rewrite fold_left_advisory_lines. eexists.
  rewrite string_app_assoc. reflexivity.
Qed.

Lemma block_lists_the_recommendations_in_order_witness :
  Insight.recommendations (hd_insight unordered_insights) <> [] /\
  exists upper,
    render_day utc_runtime (hd_insight unordered_insights) =
      (upper ++ nl ++ "🔍 Recommendations:" ++ nl
         ++ join "" (map advisory_line
                       (Insight.recommendations (hd_insight unordered_insights))))%string.
Proof.
  split; [discriminate|].
  apply (block_lists_the_recommendations_in_order utc_runtime
           (hd_insight unordered_insights)).
  discriminate.
Defined.

(** ** Risk temperatures *)

Lemma xltb_lower_threshold (r1 r2 : Z) m :
  (r1 <= r2)%Z ->
  xltb (Fin (inject_Z r2)) m = true -> xltb (Fin (inject_Z r1)) m = true.
Proof.
  intros Hr. destruct m; simpl; auto.
  rewrite !Qltb_lt. rewrite Zle_Qle in Hr. lra.
Qed.

(** X19: A crop with a lower risk temperature gets the heat-stress warning on
    every day on which a crop with a higher one gets it. *)
Theorem lower_risk_temperature_warns_at_least_as_often
    rt key p items crop_low crop_high insights_high :
  list_ p = Some items ->
  (risk_temp (crop_of crop_low) <= risk_temp (crop_of crop_high))%Z ->
  analyze_forecast rt (init key) (Some p) crop_high = Ok (Some insights_high) ->
  exists insights_low,
    analyze_forecast rt (init key) (Some p) crop_low = Ok (Some insights_low) /\
    Forall2
      (fun high low =>
         Insight.date high = Insight.date low /\
         (In heat_warning (Insight.recommendations high) ->
          In heat_warning (Insight.recommendations low)))
      insights_high insights_low.
Proof.
  intros Hl Hr Ha.
  apply analyze_forecast_inv in Ha
    as (p' & items' & os & [= <-] & Hl' & Hos & _ & ->).
  assert (items' = items) by congruence. subst items'. clear Hl'.
  rewrite (analyze_forecast_spec _ _ _ _ crop_low Hl), Hos. simpl.
  eexists. split; [reflexivity|].
  apply Forall2_map_both, Forall_forall. intros [d data] _.
  split; [reflexivity|].
  cbn [insight_of Insight.recommendations].
  rewrite !heat_in_recommend. now apply xltb_lower_threshold.
Qed.

Lemma lower_risk_temperature_warns_at_least_as_often_witness :
  list_ sample_payload = Some sample_items /\
  (risk_temp (crop_of "tea") <= risk_temp (crop_of "maize"))%Z /\
  analyze_forecast utc_runtime (init "key") (Some sample_payload) "maize"
    = Ok (Some sample_insights) /\
  exists insights_low,
    analyze_forecast utc_runtime (init "key") (Some sample_payload) "tea"
      = Ok (Some insights_low) /\
    Forall2
      (fun high low =>
         Insight.date high = Insight.date low /\
         (In heat_warning (Insight.recommendations high) ->
          In heat_warning (Insight.recommendations low)))
      sample_insights insights_low.
Proof.
  split; [reflexivity|]. split; [vm_compute; discriminate|].
  split; [reflexivity|].
  apply (lower_risk_temperature_warns_at_least_as_often utc_runtime "key"
           sample_payload sample_items "tea" "maize" sample_insights);
    try reflexivity.
  vm_compute. discriminate.
Defined.
